(** * Task manager: data model, validation, persistence operations, handlers

    A shallow embedding of [models.py], [crud.py], [database.py] and the
    task routes of [main.py], followed by the properties of the
    create / read / update / delete / list operations.

    Conventions of the embedding.
    - A Python [str] is the list of its code points; [len] is [length].
      A code point from D800 to DFFF is a lone surrogate, which a JSON
      body can carry and which the string type of a model refuses.
    - A [datetime] is a naive point in time (what [datetime.now()] returns),
      counted in microseconds; [<=] on datetimes is [<=] on [Z].  A due
      date of a request body is a [due]: naive, or aware of its offset.
    - An integer that a statement binds is of 64 bits for SQLite; the driver
      raises [OverflowError] on any other.
    - Every call of [datetime.now()] is an explicit argument [now] of the
      function that makes the call.
    - A Python object that is mutated in place ([setattr], [session.refresh])
      is a value that the mutating operation returns.
    - The table [task] is the list of its rows in rowid order, the order in
      which SQLite scans it when a SELECT has no ORDER BY. *)

From Stdlib Require Import ZArith List Bool Lia String Ascii Sorted.
From Stdlib Require Import DecimalString.
Import ListNotations.
Local Open Scope Z_scope.

Definition pystr := list Z.
Definition datetime := Z.

(** A due date as pydantic parses it from a body: without an offset, or
    with one (a string that ends in Z or in an offset, or a number).  Both
    carry their date and time. *)
Inductive due :=
| naive (d : datetime)
| aware (d : datetime) (utcoffset : Z).

(** The date and time of a due date. *)
Definition clock (v : due) : datetime :=
  match v with naive d | aware d _ => d end.

(** ** Python built-ins used by the program *)

Module py.

(** [str.isspace] on one code point (Py_UNICODE_ISSPACE). *)
Definition isspace (c : Z) : bool :=
  ((9 <=? c) && (c <=? 13)) || ((28 <=? c) && (c <=? 32))
  || (c =? 133) || (c =? 160) || (c =? 5760)
  || ((8192 <=? c) && (c <=? 8202))
  || (c =? 8232) || (c =? 8233) || (c =? 8239) || (c =? 8287)
  || (c =? 12288).

Fixpoint lstrip (s : pystr) : pystr :=
  match s with
  | [] => []
  | c :: r => if isspace c then lstrip r else s
  end.

Definition rstrip (s : pystr) : pystr := rev (lstrip (rev s)).

(** [s.strip()] *)
Definition strip (s : pystr) : pystr := rstrip (lstrip s).

(** truth value of a [str]: non-empty *)
Definition bool_str (s : pystr) : bool :=
  match s with [] => false | _ :: _ => true end.

(** truth value of an [Optional] whose values are all truthy
    (datetime objects, model instances) *)
Definition bool_obj {A : Type} (v : option A) : bool :=
  match v with None => false | Some _ => true end.

(** a literal of ASCII characters *)
Definition str (s : string) : pystr :=
  map (fun a => Z.of_N (N_of_ascii a)) (list_ascii_of_string s).

(** [all(c.isspace() for c in s)] *)
Definition all_space (s : pystr) : bool := forallb isspace s.

(** A surrogate code point; in a [str] it stands alone. *)
Definition is_surrogate (c : Z) : bool := (55296 <=? c) && (c <=? 57343).

Definition has_surrogate (s : pystr) : bool := existsb is_surrogate s.

End py.

(** ** models.py *)

Inductive TaskStatus := pending | in_progress | completed | cancelled.
Inductive TaskPriority := low | medium | high | urgent.

(** Both enumerations derive from [str]: a member is the string of its value. *)
Definition TaskStatus_value (s : TaskStatus) : pystr :=
  match s with
  | pending => py.str "pending"
  | in_progress => py.str "in_progress"
  | completed => py.str "completed"
  | cancelled => py.str "cancelled"
  end.

Definition TaskPriority_value (p : TaskPriority) : pystr :=
  match p with
  | low => py.str "low"
  | medium => py.str "medium"
  | high => py.str "high"
  | urgent => py.str "urgent"
  end.

Definition TaskStatus_eqb (a b : TaskStatus) : bool :=
  match a, b with
  | pending, pending | in_progress, in_progress
  | completed, completed | cancelled, cancelled => true
  | _, _ => false
  end.

Definition TaskPriority_eqb (a b : TaskPriority) : bool :=
  match a, b with
  | low, low | medium, medium | high, high | urgent, urgent => true
  | _, _ => false
  end.

(** [class Task(SQLModel, table=True)]: the Python object.  The annotations
    of [title], [status] and [priority] are not Optional, but nothing checks
    an assignment to an attribute of a table model, so at run time each of
    them can hold [None]. *)
Record Task := {
  id : option Z;
  title : option pystr;
  description : option pystr;
  status : option TaskStatus;
  priority : option TaskPriority;
  created_at : datetime;
  updated_at : option datetime;
  due_date : option datetime;
  assigned_to : option pystr
}.

(** A field of a request body: missing, or present with [null] or a value.
    The same distinction is what a validated model keeps in its set of
    fields that were set. *)
Inductive supplied (A : Type) : Type :=
| Unset
| Given (v : option A).
Arguments Unset {A}.
Arguments Given {A} v.

(** The body of a POST or PUT request, once parsed: the six fields a client
    may send, each of its declared type. *)
Record Body := {
  b_title : supplied pystr;
  b_description : supplied pystr;
  b_status : supplied TaskStatus;
  b_priority : supplied TaskPriority;
  b_due_date : supplied due;
  b_assigned_to : supplied pystr
}.

(** [class TaskCreate(SQLModel)], a validated instance. *)
Record TaskCreate := {
  c_title : pystr;
  c_description : option pystr;
  c_status : TaskStatus;
  c_priority : TaskPriority;
  c_due_date : option datetime;
  c_assigned_to : option pystr
}.

(** [class TaskUpdate(SQLModel)], a validated instance: every field is
    Optional with default [None]; [Unset] marks a field outside the set of
    fields that were set. *)
Record TaskUpdate := {
  u_title : supplied pystr;
  u_description : supplied pystr;
  u_status : supplied TaskStatus;
  u_priority : supplied TaskPriority;
  u_due_date : supplied datetime;
  u_assigned_to : supplied pystr
}.

(** What stopped a field: a [ValueError] of a validator or a constraint,
    a string that is not Unicode, or a [TypeError] raised in a validator. *)
Inductive cause := ValueError | UnicodeError | TypeError.

(** One error: the field, the message and the cause. *)
Definition error := (string * string * cause)%type.

(** A model, or the errors for which none was built.  The errors of cause
    [ValueError] and [UnicodeError] are those of the [ValidationError]; a
    [TypeError] is not collected by the validation: it ends it and is what
    the caller gets. *)
Inductive result (A : Type) : Type :=
| Ok (a : A)
| Invalid (errs : list error).
Arguments Ok {A} a.
Arguments Invalid {A} errs.

Definition errors_of {A : Type} (r : result A) : list error :=
  match r with Ok _ => [] | Invalid e => e end.

Definition is_ok {A : Type} (r : result A) : bool :=
  match r with Ok _ => true | Invalid _ => false end.

Definition value_error {A : Type} (field msg : string) : result A :=
  Invalid [(field, msg, ValueError)].

Definition unicode_error {A : Type} (field : string) : result A :=
  Invalid [(field,
            ("Input should be a valid string, "
             ++ "unable to parse raw data as a unicode string")%string,
            UnicodeError)].

Definition type_error {A : Type} (field msg : string) : result A :=
  Invalid [(field, msg, TypeError)].

Definition is_type_error (e : error) : bool :=
  match snd e with TypeError => true | _ => false end.

(** A [TypeError] ended the validation. *)
Definition crashed {A : Type} (r : result A) : bool :=
  existsb is_type_error (errors_of r).

(** The errors that the framework can write into a 422 response: those of a
    [ValidationError] whose inputs are Unicode. *)
Definition renderable (errs : list error) : bool :=
  forallb (fun e => match snd e with ValueError => true | _ => false end)
          errs.

Module TaskCreate_.

(** [@validator('title')] *)
Definition validate_title (v : pystr) : result pystr :=
  if negb (py.bool_str v) || negb (py.bool_str (py.strip v))
  then value_error "title" "Title cannot be empty or whitespace only"
  else Ok (py.strip v).

(** [@validator('due_date')]: [v <= datetime.now()] compares [v] with a
    naive datetime, which raises [TypeError] when [v] is aware. *)
Definition validate_due_date (now : datetime) (v : option due)
  : result (option due) :=
  match v with
  | None => Ok v
  | Some (naive d) =>
      if d <=? now
      then value_error "due_date" "Due date must be in the future"
      else Ok v
  | Some (aware _ _) =>
      type_error "due_date"
        "can't compare offset-naive and offset-aware datetimes"
  end.

End TaskCreate_.

Module TaskUpdate_.

(** [@validator('title')] *)
Definition validate_title (v : option pystr) : result (option pystr) :=
  match v with
  | Some s =>
      if negb (py.bool_str s) || negb (py.bool_str (py.strip s))
      then value_error "title" "Title cannot be empty or whitespace only"
      else Ok (Some (py.strip s))
  | None => Ok v
  end.

(** [@validator('due_date')]: [v <= datetime.now()] compares [v] with a
    naive datetime, which raises [TypeError] when [v] is aware. *)
Definition validate_due_date (now : datetime) (v : option due)
  : result (option due) :=
  match v with
  | None => Ok v
  | Some (naive d) =>
      if d <=? now
      then value_error "due_date" "Due date must be in the future"
      else Ok v
  | Some (aware _ _) =>
      type_error "due_date"
        "can't compare offset-naive and offset-aware datetimes"
  end.

End TaskUpdate_.

(** [Field(max_length=n)] on a string *)
Definition max_length (field : string) (n : nat) (s : pystr) : result pystr :=
  if (n <? List.length s)%nat
  then value_error field
         ("String should have at most "
          ++ NilEmpty.string_of_uint (Nat.to_uint n) ++ " characters")
  else Ok s.

(** A value of a field [str = Field(max_length=n)]: a Unicode string, then
    within the length. *)
Definition str_field (field : string) (n : nat) (s : pystr) : result pystr :=
  if py.has_surrogate s then unicode_error field else max_length field n s.

(** An optional string field with a length bound and default [None]. *)
Definition optional_str (field : string) (n : nat) (v : supplied pystr)
  : result (option pystr) :=
  match v with
  | Unset | Given None => Ok None
  | Given (Some s) =>
      match str_field field n s with
      | Ok s => Ok (Some s)
      | Invalid e => Invalid e
      end
  end.

(** A required-type field with a default: [null] is not a member of the
    type. *)
Definition with_default {A : Type} (field : string) (d : A) (v : supplied A)
  : result A :=
  match v with
  | Unset => Ok d
  | Given None => value_error field "Input should be a valid member"
  | Given (Some a) => Ok a
  end.

(** The field [title] of [TaskCreate]: required, a string of at most 200
    characters, then [validate_title]. *)
Definition TaskCreate_title (v : supplied pystr) : result pystr :=
  match v with
  | Unset => value_error "title" "Field required"
  | Given None => value_error "title" "Input should be a valid string"
  | Given (Some s) =>
      match str_field "title" 200 s with
      | Ok s => TaskCreate_.validate_title s
      | Invalid e => Invalid e
      end
  end.

(** The field [due_date] of [TaskCreate]: a validator is not run on a
    default.  The validator returns its argument, and returns only for
    [None] and for a naive datetime. *)
Definition TaskCreate_due_date (now : datetime) (v : supplied due)
  : result (option datetime) :=
  match v with
  | Unset => Ok None
  | Given v =>
      match TaskCreate_.validate_due_date now v with
      | Ok r => Ok (option_map clock r)
      | Invalid e => Invalid e
      end
  end.

(** [TaskCreate] built from a body: the constraints of a field first, then
    its validator.  All errors are reported, unless a [TypeError] ended the
    validation. *)
Definition TaskCreate_validate (now : datetime) (b : Body)
  : result TaskCreate :=
  let r_title := TaskCreate_title (b_title b) in
  let r_description := optional_str "description" 1000 (b_description b) in
  let r_status := with_default "status" pending (b_status b) in
  let r_priority := with_default "priority" medium (b_priority b) in
  let r_due_date := TaskCreate_due_date now (b_due_date b) in
  let r_assigned_to := optional_str "assigned_to" 100 (b_assigned_to b) in
  match r_title, r_description, r_status, r_priority, r_due_date,
        r_assigned_to with
  | Ok t, Ok d, Ok s, Ok p, Ok dd, Ok a =>
      Ok {| c_title := t; c_description := d; c_status := s;
            c_priority := p; c_due_date := dd; c_assigned_to := a |}
  | _, _, _, _, _, _ =>
      if crashed r_due_date then Invalid (errors_of r_due_date)
      else Invalid (errors_of r_title ++ errors_of r_description
                    ++ errors_of r_status ++ errors_of r_priority
                    ++ errors_of r_due_date ++ errors_of r_assigned_to)
  end.

(** An Optional string field of [TaskUpdate]: kept as supplied, a value
    within its length bound. *)
Definition supplied_str (field : string) (n : nat) (v : supplied pystr)
  : result (supplied pystr) :=
  match v with
  | Given (Some s) =>
      match str_field field n s with
      | Ok s => Ok (Given (Some s))
      | Invalid e => Invalid e
      end
  | _ => Ok v
  end.

(** The field [title] of [TaskUpdate]: [validate_title] runs on what was
    supplied, [null] included, and not on the default. *)
Definition TaskUpdate_title (v : supplied pystr) : result (supplied pystr) :=
  match v with
  | Unset => Ok Unset
  | Given None =>
      match TaskUpdate_.validate_title None with
      | Ok v => Ok (Given v)
      | Invalid e => Invalid e
      end
  | Given (Some s) =>
      match str_field "title" 200 s with
      | Ok s =>
          match TaskUpdate_.validate_title (Some s) with
          | Ok v => Ok (Given v)
          | Invalid e => Invalid e
          end
      | Invalid e => Invalid e
      end
  end.

(** The field [due_date] of [TaskUpdate]. *)
Definition TaskUpdate_due_date (now : datetime) (v : supplied due)
  : result (supplied datetime) :=
  match v with
  | Unset => Ok Unset
  | Given v =>
      match TaskUpdate_.validate_due_date now v with
      | Ok r => Ok (Given (option_map clock r))
      | Invalid e => Invalid e
      end
  end.

(** [TaskUpdate] built from a body.  [status] and [priority] are Optional
    members of their enumeration and have no validator. *)
Definition TaskUpdate_validate (now : datetime) (b : Body)
  : result TaskUpdate :=
  let r_title := TaskUpdate_title (b_title b) in
  let r_description := supplied_str "description" 1000 (b_description b) in
  let r_due_date := TaskUpdate_due_date now (b_due_date b) in
  let r_assigned_to := supplied_str "assigned_to" 100 (b_assigned_to b) in
  match r_title, r_description, r_due_date, r_assigned_to with
  | Ok t, Ok d, Ok dd, Ok a =>
      Ok {| u_title := t; u_description := d; u_status := b_status b;
            u_priority := b_priority b; u_due_date := dd;
            u_assigned_to := a |}
  | _, _, _, _ =>
      if crashed r_due_date then Invalid (errors_of r_due_date)
      else Invalid (errors_of r_title ++ errors_of r_description
                    ++ errors_of r_due_date ++ errors_of r_assigned_to)
  end.

(** [Task.model_validate(task)]: a new [Task] from the attributes of a
    [TaskCreate], under the field constraints of [Task]; [id] and
    [updated_at] take their default [None], [created_at] its default factory
    [datetime.now]. *)
Definition Task_model_validate (now : datetime) (task : TaskCreate)
  : result Task :=
  let r_title := str_field "title" 200 (c_title task) in
  let r_description :=
    optional_str "description" 1000 (Given (c_description task)) in
  let r_assigned_to :=
    optional_str "assigned_to" 100 (Given (c_assigned_to task)) in
  match r_title, r_description, r_assigned_to with
  | Ok t, Ok d, Ok a =>
      Ok {| id := None; title := Some t; description := d;
            status := Some (c_status task);
            priority := Some (c_priority task);
            created_at := now; updated_at := None;
            due_date := c_due_date task; assigned_to := a |}
  | _, _, _ =>
      Invalid (errors_of r_title ++ errors_of r_description
               ++ errors_of r_assigned_to)
  end.

(** An entry of the dictionary [task_update.dict(exclude_unset=True)]: the
    name of an attribute of [Task] with a value of the type the source gives
    it. *)
Inductive item :=
| title_ (v : option pystr)
| description_ (v : option pystr)
| status_ (v : option TaskStatus)
| priority_ (v : option TaskPriority)
| due_date_ (v : option datetime)
| assigned_to_ (v : option pystr)
| updated_at_ (v : option datetime).

Definition same_key (a b : item) : bool :=
  match a, b with
  | title_ _, title_ _ | description_ _, description_ _
  | status_ _, status_ _ | priority_ _, priority_ _
  | due_date_ _, due_date_ _ | assigned_to_ _, assigned_to_ _
  | updated_at_ _, updated_at_ _ => true
  | _, _ => false
  end.

(** [d[key] = value]: the value of an existing key is replaced in place, a
    new key goes to the end. *)
Definition dict_setitem (d : list item) (it : item) : list item :=
  if existsb (same_key it) d
  then map (fun x => if same_key it x then it else x) d
  else d ++ [it].

Definition entry {A : Type} (mk : option A -> item) (v : supplied A)
  : list item :=
  match v with Unset => [] | Given x => [mk x] end.

(** [task_update.dict(exclude_unset=True)]: the fields that were set, in the
    order of their declaration. *)
Definition dict_exclude_unset (u : TaskUpdate) : list item :=
  entry title_ (u_title u) ++ entry description_ (u_description u)
  ++ entry status_ (u_status u) ++ entry priority_ (u_priority u)
  ++ entry due_date_ (u_due_date u) ++ entry assigned_to_ (u_assigned_to u).

(** [setattr(db_task, field, value)] *)
Definition setattr (o : Task) (it : item) : Task :=
  match it with
  | title_ v =>
      {| id := id o; title := v; description := description o;
         status := status o; priority := priority o;
         created_at := created_at o; updated_at := updated_at o;
         due_date := due_date o; assigned_to := assigned_to o |}
  | description_ v =>
      {| id := id o; title := title o; description := v;
         status := status o; priority := priority o;
         created_at := created_at o; updated_at := updated_at o;
         due_date := due_date o; assigned_to := assigned_to o |}
  | status_ v =>
      {| id := id o; title := title o; description := description o;
         status := v; priority := priority o;
         created_at := created_at o; updated_at := updated_at o;
         due_date := due_date o; assigned_to := assigned_to o |}
  | priority_ v =>
      {| id := id o; title := title o; description := description o;
         status := status o; priority := v;
         created_at := created_at o; updated_at := updated_at o;
         due_date := due_date o; assigned_to := assigned_to o |}
  | due_date_ v =>
      {| id := id o; title := title o; description := description o;
         status := status o; priority := priority o;
         created_at := created_at o; updated_at := updated_at o;
         due_date := v; assigned_to := assigned_to o |}
  | assigned_to_ v =>
      {| id := id o; title := title o; description := description o;
         status := status o; priority := priority o;
         created_at := created_at o; updated_at := updated_at o;
         due_date := due_date o; assigned_to := v |}
  | updated_at_ v =>
      {| id := id o; title := title o; description := description o;
         status := status o; priority := priority o;
         created_at := created_at o; updated_at := v;
         due_date := due_date o; assigned_to := assigned_to o |}
  end.

(** ** The session and the table

    [database.py] opens one [Session] per request on the SQLite file; the
    table is the one [SQLModel.metadata.create_all] derives from [Task]:
    [id] is the INTEGER PRIMARY KEY, and the columns whose annotation is not
    Optional ([title], [status], [priority], [created_at]) are NOT NULL. *)

Inductive exn :=
| IntegrityError (column : string)
| StaleDataError
| InvalidRequestError
| OverflowError
| ValidationError (errs : list error).

Inductive outcome (A : Type) : Type :=
| Return (a : A)
| Raise (e : exn).
Arguments Return {A} a.
Arguments Raise {A} e.

(** The calls a function makes on its session, in order. *)
Inductive call := exec_ | add_ | delete_ | commit_ | refresh_.

(** What the unit of work holds until the next flush. *)
Inductive pend :=
| to_save (o : Task)
| to_delete (o : Task).

Record Session := {
  rows : list Task;          (* the table, as committed *)
  unit_of_work : list pend;
  lastrowid : option Z;      (* the key the last INSERT assigned *)
  calls : list call
}.

Definition M (A : Type) : Type := Session -> outcome A * Session.

Definition ret {A : Type} (a : A) : M A := fun s => (Return a, s).

Definition raise {A : Type} (e : exn) : M A := fun s => (Raise e, s).

Definition bind {A B : Type} (m : M A) (k : A -> M B) : M B :=
  fun s =>
    match m s with
    | (Return a, s') => k a s'
    | (Raise e, s') => (Raise e, s')
    end.

Notation "x <- m ;; k" := (bind m (fun x => k))
  (at level 61, m at next level, right associativity).
Notation "m ;;; k" := (bind m (fun _ => k))
  (at level 61, right associativity).

Definition logged (c : call) (s : Session) : Session :=
  {| rows := rows s; unit_of_work := unit_of_work s; lastrowid := lastrowid s;
     calls := calls s ++ [c] |}.

(** [Task.id == k], as SQL evaluates it: NULL matches nothing. *)
Definition id_is (k : Z) (t : Task) : bool :=
  match id t with Some i => i =? k | None => false end.

Definition status_is (v : TaskStatus) (t : Task) : bool :=
  match status t with Some x => TaskStatus_eqb x v | None => false end.

Definition priority_is (v : TaskPriority) (t : Task) : bool :=
  match priority t with Some x => TaskPriority_eqb x v | None => false end.

(** A SELECT on [task]: its WHERE clauses, the keys that the clauses
    compare [Task.id] with, its OFFSET and its LIMIT. *)
Record statement := {
  whereclause : list (Task -> bool);
  keys : list Z;
  offset_ : option Z;
  limit_ : option Z
}.

Definition select_Task : statement :=
  {| whereclause := []; keys := []; offset_ := None; limit_ := None |}.

Definition where_ (st : statement) (p : Task -> bool) : statement :=
  {| whereclause := whereclause st ++ [p]; keys := keys st;
     offset_ := offset_ st; limit_ := limit_ st |}.

(** [.where(Task.id == k)] *)
Definition where_id (st : statement) (k : Z) : statement :=
  {| whereclause := whereclause st ++ [id_is k]; keys := keys st ++ [k];
     offset_ := offset_ st; limit_ := limit_ st |}.

Definition offset (st : statement) (n : Z) : statement :=
  {| whereclause := whereclause st; keys := keys st; offset_ := Some n;
     limit_ := limit_ st |}.

Definition limit (st : statement) (n : Z) : statement :=
  {| whereclause := whereclause st; keys := keys st; offset_ := offset_ st;
     limit_ := Some n |}.

(** An integer of 64 bits, which is what SQLite takes as a parameter. *)
Definition fits_int64 (z : Z) : bool :=
  (-9223372036854775808 <=? z) && (z <=? 9223372036854775807).

Definition fits_opt (v : option Z) : bool :=
  match v with None => true | Some z => fits_int64 z end.

(** The driver can bind the integers of a statement.  OFFSET and LIMIT are
    of 64 bits.  So is a key, or else it is the key of a row: SQLite stored
    the keys of its rows, which are therefore of 64 bits, and the tables of
    this model do not bound theirs. *)
Definition bindable (st : statement) (table : list Task) : bool :=
  fits_opt (offset_ st) && fits_opt (limit_ st)
  && forallb (fun k => fits_int64 k || existsb (id_is k) table) (keys st).

Definition matching (st : statement) (t : Task) : bool :=
  forallb (fun p => p t) (whereclause st).

(** The rows a statement returns.  SQLite reads a negative OFFSET as 0 and a
    negative LIMIT as no limit. *)
Definition result_set (st : statement) (table : list Task) : list Task :=
  let r := filter (matching st) table in
  let r := match offset_ st with
           | None => r
           | Some k => skipn (Z.to_nat k) r
           end in
  match limit_ st with
  | None => r
  | Some l => if l <? 0 then r else firstn (Z.to_nat l) r
  end.

(** [.first()] *)
Definition first {A : Type} (l : list A) : option A := hd_error l.

(** [session.add(o)] *)
Definition session_add (o : Task) : M unit :=
  fun s =>
    (Return tt,
     {| rows := rows s; unit_of_work := unit_of_work s ++ [to_save o];
        lastrowid := lastrowid s; calls := calls s ++ [add_] |}).

(** [session.delete(o)] *)
Definition session_delete (o : Task) : M unit :=
  fun s =>
    (Return tt,
     {| rows := rows s; unit_of_work := unit_of_work s ++ [to_delete o];
        lastrowid := lastrowid s; calls := calls s ++ [delete_] |}).

(** The largest rowid in use. *)
Fixpoint max_rowid (table : list Task) : option Z :=
  match table with
  | [] => None
  | t :: r =>
      match id t, max_rowid r with
      | Some i, Some m => Some (Z.max i m)
      | Some i, None => Some i
      | None, m => m
      end
  end.

(** The rowid SQLite gives to a row inserted without one: one more than the
    largest in use, 1 in an empty table. *)
Definition next_rowid (table : list Task) : Z :=
  match max_rowid table with
  | None => 1
  | Some m => m + 1
  end.

(** The first NOT NULL column that a row leaves NULL. *)
Definition null_violation (o : Task) : option string :=
  match title o, status o, priority o with
  | None, _, _ => Some "task.title"%string
  | Some _, None, _ => Some "task.status"%string
  | Some _, Some _, None => Some "task.priority"%string
  | Some _, Some _, Some _ => None
  end.

(** An INSERT leaves out the columns whose attribute is [None]; [status] and
    [priority] then take the default of their column. *)
Definition insert_defaults (o : Task) : Task :=
  {| id := id o; title := title o; description := description o;
     status := match status o with None => Some pending | v => v end;
     priority := match priority o with None => Some medium | v => v end;
     created_at := created_at o; updated_at := updated_at o;
     due_date := due_date o; assigned_to := assigned_to o |}.

Definition with_id (k : Z) (o : Task) : Task :=
  {| id := Some k; title := title o; description := description o;
     status := status o; priority := priority o;
     created_at := created_at o; updated_at := updated_at o;
     due_date := due_date o; assigned_to := assigned_to o |}.

(** One step of a flush on (table, lastrowid).  An object without a key is
    new and is inserted at the end of the table; an object with a key was
    loaded from its row, which is rewritten in place. *)
Definition flush_one (st : list Task * option Z) (p : pend)
  : outcome (list Task * option Z) :=
  let (table, last) := st in
  match p with
  | to_save o =>
      match id o with
      | None =>
          let o := insert_defaults o in
          match null_violation o with
          | Some c => Raise (IntegrityError c)
          | None =>
              let k := next_rowid table in
              Return (table ++ [with_id k o], Some k)
          end
      | Some k =>
          match null_violation o with
          | Some c => Raise (IntegrityError c)
          | None =>
              if existsb (id_is k) table
              then Return (map (fun r => if id_is k r then o else r) table,
                           last)
              else Raise StaleDataError
          end
      end
  | to_delete o =>
      match id o with
      | None => Raise InvalidRequestError
      | Some k => Return (filter (fun r => negb (id_is k r)) table, last)
      end
  end.

Fixpoint flush (ps : list pend) (st : list Task * option Z)
  : outcome (list Task * option Z) :=
  match ps with
  | [] => Return st
  | p :: ps' =>
      match flush_one st p with
      | Return st' => flush ps' st'
      | Raise e => Raise e
      end
  end.

(** A query of the session.  The session flushes its unit of work first
    (autoflush), and an error of that flush is raised by the query; the
    query reads the table as flushed.  Nothing is committed by it: [rows]
    stays the committed table, and the unit of work is kept, as what the
    open transaction holds, for the commit to write.  The driver then binds
    the integers of the statement. *)
Definition query {A : Type} (st : statement) (read : list Task -> A) : M A :=
  fun s =>
    match flush (unit_of_work s) (rows s, lastrowid s) with
    | Raise e =>
        (Raise e,
         {| rows := rows s; unit_of_work := []; lastrowid := lastrowid s;
            calls := calls s ++ [exec_] |})
    | Return (view, last) =>
        let s' := {| rows := rows s; unit_of_work := unit_of_work s;
                     lastrowid := last; calls := calls s ++ [exec_] |} in
        if bindable st view then (Return (read view), s')
        else (Raise OverflowError, s')
    end.

(** [session.exec(statement)] *)
Definition session_exec (st : statement) : M (list Task) :=
  query st (result_set st).

(** [session.exec(select(func.count(Task.id)) ...).first()]: the number of
    rows of the statement whose [id] is not NULL. *)
Definition session_exec_count (st : statement) : M Z :=
  query st (fun view =>
    Z.of_nat (List.length
      (filter (fun t => py.bool_obj (id t)) (result_set st view)))).

(** [session.commit()]: flush, then commit; an error in the flush rolls the
    transaction back and is raised. *)
Definition session_commit : M unit :=
  fun s =>
    match flush (unit_of_work s) (rows s, lastrowid s) with
    | Return (table, last) =>
        (Return tt,
         {| rows := table; unit_of_work := []; lastrowid := last;
            calls := calls s ++ [commit_] |})
    | Raise e =>
        (Raise e,
         {| rows := rows s; unit_of_work := []; lastrowid := lastrowid s;
            calls := calls s ++ [commit_] |})
    end.

(** [session.refresh(o)]: the attributes of [o] are loaded again from its
    row.  The key of an object that the flush inserted was written into the
    object by the flush; here it is the session's [lastrowid]. *)
Definition session_refresh (o : Task) : M Task :=
  fun s =>
    let key := match id o with Some k => Some k | None => lastrowid s end in
    match key with
    | None => (Raise InvalidRequestError, logged refresh_ s)
    | Some k =>
        match first (filter (id_is k) (rows s)) with
        | Some r => (Return r, logged refresh_ s)
        | None => (Raise InvalidRequestError, logged refresh_ s)
        end
    end.

(** [get_session] of [database.py]: a new session on the table. *)
Definition get_session (table : list Task) : Session :=
  {| rows := table; unit_of_work := []; lastrowid := None; calls := [] |}.

(** Truth value of an [Optional] enumeration member: that of its string. *)
Definition bool_status (v : option TaskStatus) : bool :=
  match v with None => false | Some s => py.bool_str (TaskStatus_value s) end.

Definition bool_priority (v : option TaskPriority) : bool :=
  match v with
  | None => false
  | Some p => py.bool_str (TaskPriority_value p)
  end.

(** ** crud.py *)

Module crud.

Definition create_task (now : datetime) (task : TaskCreate) : M Task :=
  match Task_model_validate now task with
  | Invalid e => raise (ValidationError e)
  | Ok db_task =>
      session_add db_task ;;;
      session_commit ;;;
      db_task <- session_refresh db_task ;;
      ret db_task
  end.

Definition get_task (task_id : Z) : M (option Task) :=
  let statement := where_id select_Task task_id in
  res <- session_exec statement ;;
  ret (first res).

Definition get_tasks (skip limit_n : Z) (status : option TaskStatus)
    (priority : option TaskPriority) : M (list Task * Z) :=
  let statement := select_Task in
  let statement :=
    match status with
    | Some v => if bool_status status then where_ statement (status_is v)
                else statement
    | None => statement
    end in
  let statement :=
    match priority with
    | Some v => if bool_priority priority
                then where_ statement (priority_is v)
                else statement
    | None => statement
    end in
  let count_statement := select_Task in
  let count_statement :=
    match status with
    | Some v => if bool_status status
                then where_ count_statement (status_is v)
                else count_statement
    | None => count_statement
    end in
  let count_statement :=
    match priority with
    | Some v => if bool_priority priority
                then where_ count_statement (priority_is v)
                else count_statement
    | None => count_statement
    end in
  total <- session_exec_count count_statement ;;
  let statement := limit (offset statement skip) limit_n in
  tasks <- session_exec statement ;;
  ret (tasks, total).

Definition get_tasks_by_status (status : TaskStatus) (skip limit_n : Z)
  : M (list Task * Z) :=
  get_tasks skip limit_n (Some status) None.

Definition get_tasks_by_priority (priority : TaskPriority)
    (skip limit_n : Z) : M (list Task * Z) :=
  get_tasks skip limit_n None (Some priority).

Definition update_task (now : datetime) (task_id : Z)
    (task_update : TaskUpdate) : M (option Task) :=
  db_task <- get_task task_id ;;
  match db_task with
  | None => ret None
  | Some db_task =>
      let update_data := dict_exclude_unset task_update in
      match update_data with
      | _ :: _ =>
          let update_data :=
            dict_setitem update_data (updated_at_ (Some now)) in
          let db_task := fold_left setattr update_data db_task in
          session_add db_task ;;;
          session_commit ;;;
          db_task <- session_refresh db_task ;;
          ret (Some db_task)
      | [] => ret (Some db_task)
      end
  end.

Definition delete_task (task_id : Z) : M bool :=
  db_task <- get_task task_id ;;
  match db_task with
  | None => ret false
  | Some db_task =>
      session_delete db_task ;;;
      session_commit ;;;
      ret true
  end.

End crud.

(** ** main.py: the task routes *)

Inductive content :=
| task_body (t : Task)
| page_body (tasks : list Task) (total skip limit_n : Z)
| message_body (m : string)
| detail_body (m : string)
| errors_body (e : list error)
| server_error.

Record Response := {
  status_code : Z;
  body : content
}.

(** [raise HTTPException(status_code=404, detail="Task not found")] *)
Definition not_found : Response :=
  {| status_code := 404; body := detail_body "Task not found" |}.

(** What the framework answers when the handler raises anything else. *)
Definition internal_error : Response :=
  {| status_code := 500; body := server_error |}.

Definition unprocessable (e : list error) : Response :=
  {| status_code := 422; body := errors_body e |}.

(** The answer to a body of which no model was built: 422 with the errors.
    When a [TypeError] ended the validation, or when an error is about a
    string that cannot be written into the response, the answer is 500. *)
Definition refused (e : list error) : Response :=
  if renderable e then unprocessable e else internal_error.

(** [Query(default, ge=lo, le=hi)]; [hi] is absent for [skip]. *)
Definition Query (name : string) (default lo : Z) (hi : option Z)
    (v : option Z) : result Z :=
  let x := match v with None => default | Some x => x end in
  if x <? lo
  then value_error name "Input should be greater than or equal to ge"
  else match hi with
       | Some h =>
           if h <? x
           then value_error name "Input should be less than or equal to le"
           else Ok x
       | None => Ok x
       end.

Module main.

(** Each handler runs in a session of its own ([Depends(get_session)]) and
    leaves the table as its session committed it. *)

Definition create_task (now_v now : datetime) (task : Body)
    (table : list Task) : Response * list Task :=
  match TaskCreate_validate now_v task with
  | Invalid e => (refused e, table)
  | Ok task =>
      match crud.create_task now task (get_session table) with
      | (Return t, s) =>
          ({| status_code := 201; body := task_body t |}, rows s)
      | (Raise _, s) => (internal_error, rows s)
      end
  end.

Definition page (skip limit_n : option Z)
    (list_ : Z -> Z -> M (list Task * Z)) (table : list Task)
  : Response * list Task :=
  match Query "skip" 0 0 None skip,
        Query "limit" 100 1 (Some 1000) limit_n with
  | Ok skip, Ok limit_n =>
      match list_ skip limit_n (get_session table) with
      | (Return (tasks, total), s) =>
          ({| status_code := 200;
              body := page_body tasks total skip limit_n |}, rows s)
      | (Raise _, s) => (internal_error, rows s)
      end
  | r1, r2 => (unprocessable (errors_of r1 ++ errors_of r2), table)
  end.

Definition read_tasks (skip limit_n : option Z) (table : list Task)
  : Response * list Task :=
  page skip limit_n (fun s l => crud.get_tasks s l None None) table.

Definition read_task (task_id : Z) (table : list Task)
  : Response * list Task :=
  match crud.get_task task_id (get_session table) with
  | (Return task, s) =>
      if negb (py.bool_obj task) then (not_found, rows s)
      else match task with
           | Some t => ({| status_code := 200; body := task_body t |},
                        rows s)
           | None => (not_found, rows s)
           end
  | (Raise _, s) => (internal_error, rows s)
  end.

Definition update_task (now_v now : datetime) (task_id : Z)
    (task_update : Body) (table : list Task) : Response * list Task :=
  match TaskUpdate_validate now_v task_update with
  | Invalid e => (refused e, table)
  | Ok task_update =>
      match crud.update_task now task_id task_update (get_session table)
      with
      | (Return task, s) =>
          if negb (py.bool_obj task) then (not_found, rows s)
          else match task with
               | Some t =>
                   ({| status_code := 200; body := task_body t |}, rows s)
               | None => (not_found, rows s)
               end
      | (Raise _, s) => (internal_error, rows s)
      end
  end.

Definition delete_task (task_id : Z) (table : list Task)
  : Response * list Task :=
  match crud.delete_task task_id (get_session table) with
  | (Return success, s) =>
      if negb success then (not_found, rows s)
      else ({| status_code := 200;
               body := message_body "Task deleted successfully" |},
            rows s)
  | (Raise _, s) => (internal_error, rows s)
  end.

Definition read_tasks_by_status (status : TaskStatus)
    (skip limit_n : option Z) (table : list Task)
  : Response * list Task :=
  page skip limit_n (crud.get_tasks_by_status status) table.

Definition read_tasks_by_priority (priority : TaskPriority)
    (skip limit_n : option Z) (table : list Task)
  : Response * list Task :=
  page skip limit_n (crud.get_tasks_by_priority priority) table.

End main.

(** ** Histories of the store *)

(** The requests that write to the store, each with the clock readings its
    handling makes: at validation of the body, then in the operation. *)
Inductive request :=
| POST_tasks (now_v now : datetime) (task : Body)
| PUT_task (now_v now : datetime) (task_id : Z) (task_update : Body)
| DELETE_task (task_id : Z).

Definition handle (r : request) (table : list Task) : Response * list Task :=
  match r with
  | POST_tasks now_v now task => main.create_task now_v now task table
  | PUT_task now_v now task_id task_update =>
      main.update_task now_v now task_id task_update table
  | DELETE_task task_id => main.delete_task task_id table
  end.

(** The table after a sequence of requests. *)
Definition run (rs : list request) (table : list Task) : list Task :=
  fold_left (fun t r => snd (handle r t)) rs table.

(** The store starts empty ([create_db_and_tables]). *)
Definition reachable (table : list Task) : Prop :=
  exists rs, run rs [] = table.

(** ** Predicates on tasks and tables *)

(** The title is a string that is not empty and not made of whitespace:
    trimming it leaves something. *)
Definition title_ok (t : Task) : bool :=
  match title t with
  | Some s => py.bool_str s && py.bool_str (py.strip s)
  | None => false
  end.

(** [status] holds one of the four members of [TaskStatus]. *)
Definition status_ok (t : Task) : bool :=
  match status t with
  | Some pending | Some in_progress | Some completed | Some cancelled => true
  | None => false
  end.

(** [priority] holds one of the four members of [TaskPriority]. *)
Definition priority_ok (t : Task) : bool :=
  match priority t with
  | Some low | Some medium | Some high | Some urgent => true
  | None => false
  end.

Definition task_ok (t : Task) : bool :=
  title_ok t && status_ok t && priority_ok t.

(** The keys of the rows. *)
Definition ids (table : list Task) : list (option Z) := map id table.

(** What the PRIMARY KEY guarantees: every row has a key, no two rows the
    same. *)
Definition with_keys (table : list Task) : Prop :=
  Forall (fun t => id t <> None) table /\ NoDup (ids table).

(** The keys are those of an INTEGER PRIMARY KEY: each of 64 bits. *)
Definition keyed (table : list Task) : Prop :=
  with_keys table
  /\ Forall (fun t => forall k, id t = Some k -> fits_int64 k = true) table.

(** A body that supplies no field. *)
Definition empty_body : Body :=
  {| b_title := Unset; b_description := Unset; b_status := Unset;
     b_priority := Unset; b_due_date := Unset; b_assigned_to := Unset |}.

(** A task that update may write: no NOT NULL column is left NULL. *)
Definition not_null (t : Task) : Prop := null_violation t = None.

(** What the PRIMARY KEY and the NOT NULL columns guarantee together. *)
Definition schema_ok (table : list Task) : Prop :=
  with_keys table /\ Forall not_null table.

(** A string with nothing in it but whitespace, the empty string
    included. *)
Definition blank (s : pystr) : Prop := py.all_space s = true.

(** The [TaskUpdate] that sets no field. *)
Definition TaskUpdate_empty : TaskUpdate :=
  {| u_title := Unset; u_description := Unset; u_status := Unset;
     u_priority := Unset; u_due_date := Unset; u_assigned_to := Unset |}.

(** The value of an attribute after a partial update: the supplied one if
    the field is present, the prior one if not. *)
Definition field_after {A : Type} (v : supplied A) (prior : option A)
  : option A :=
  match v with
  | Unset => prior
  | Given x => x
  end.

(** The task that a partial update is to leave: the fields present take
    their supplied value, [updated_at] is the time of the update, and
    [id], [created_at] and the fields not present are as before. *)
Definition updated (now : datetime) (u : TaskUpdate) (t : Task) : Task :=
  {| id := id t;
     title := field_after (u_title u) (title t);
     description := field_after (u_description u) (description t);
     status := field_after (u_status u) (status t);
     priority := field_after (u_priority u) (priority t);
     created_at := created_at t;
     updated_at := Some now;
     due_date := field_after (u_due_date u) (due_date t);
     assigned_to := field_after (u_assigned_to u) (assigned_to t) |}.

(** A task matches an optional pair of filters: each filter that is given
    equals the task's value. *)
Definition matches (st : option TaskStatus) (pr : option TaskPriority)
    (t : Task) : bool :=
  match st with None => true | Some v => status_is v t end
  && match pr with None => true | Some v => priority_is v t end.

(** The task that [Task.model_validate] builds from a [TaskCreate] within
    the constraints, the one [create_task] hands to the session. *)
Definition new_task (now : datetime) (task : TaskCreate) : Task :=
  {| id := None; title := Some (c_title task);
     description := c_description task;
     status := Some (c_status task); priority := Some (c_priority task);
     created_at := now; updated_at := None;
     due_date := c_due_date task; assigned_to := c_assigned_to task |}.

(** The SELECT with the WHERE clauses of the filters that are given. *)
Definition clauses (st : option TaskStatus) (pr : option TaskPriority)
  : statement :=
  let s := select_Task in
  let s := match st with Some v => where_ s (status_is v) | None => s end in
  match pr with Some v => where_ s (priority_is v) | None => s end.

(** The table with the row of key [k] replaced. *)
Definition replace_row (k : Z) (o : Task) (table : list Task) : list Task :=
  map (fun r => if id_is k r then o else r) table.

(** ** Sample data *)

Definition body_of (t : supplied pystr) (s : supplied TaskStatus)
    (p : supplied TaskPriority) (d : supplied due) : Body :=
  {| b_title := t; b_description := Unset; b_status := s; b_priority := p;
     b_due_date := d; b_assigned_to := Unset |}.

(** [{"title": "  Buy milk ", "priority": "high"}] *)
Definition buy_milk : Body :=
  body_of (Given (Some (py.str "  Buy milk "))) Unset (Given (Some high))
          Unset.

(** The row that [buy_milk] becomes in an empty store at time 11. *)
Definition milk_row : Task :=
  {| id := Some 1; title := Some (py.str "Buy milk"); description := None;
     status := Some pending; priority := Some high; created_at := 11;
     updated_at := None; due_date := None; assigned_to := None |}.

(** [{"status": "completed"}] *)
Definition set_completed : TaskUpdate :=
  {| u_title := Unset; u_description := Unset;
     u_status := Given (Some completed); u_priority := Unset;
     u_due_date := Unset; u_assigned_to := Unset |}.


(** [{"title": null}] *)
Definition null_title : Body := body_of (Given None) Unset Unset Unset.

(** [{"status": null, "description": "x"}] *)
Definition null_status : TaskUpdate :=
  {| u_title := Unset; u_description := Given (Some (py.str "x"));
     u_status := Given None; u_priority := Unset;
     u_due_date := Unset; u_assigned_to := Unset |}.

(** The session of an operation that only looked its task up. *)
Definition looked_up (table : list Task) : Session :=
  {| rows := table; unit_of_work := []; lastrowid := None;
     calls := [exec_] |}.

(** ** The response models of [models.py] *)

(** [class TaskResponse(SQLModel)]: [id], [title], [status] and [priority]
    are not Optional. *)
Record TaskResponse := {
  r_id : Z;
  r_title : pystr;
  r_description : option pystr;
  r_status : TaskStatus;
  r_priority : TaskPriority;
  r_created_at : datetime;
  r_updated_at : option datetime;
  r_due_date : option datetime;
  r_assigned_to : option pystr
}.

(** [class TaskListResponse(SQLModel)] *)
Record TaskListResponse := {
  l_tasks : list TaskResponse;
  l_total : Z;
  l_skip : Z;
  l_limit : Z
}.

(** The error of a field that is not Optional and holds [None]. *)
Definition none_error {A : Type} (field : string) (v : option A)
  : list error :=
  match v with
  | Some _ => []
  | None => [(field, "Input should be a valid value"%string, ValueError)]
  end.

(** A [TaskResponse] from the attributes of a [Task], as the framework
    builds it for [response_model=TaskResponse]. *)
Definition TaskResponse_validate (t : Task) : result TaskResponse :=
  match id t, title t, status t, priority t with
  | Some i, Some s, Some st, Some p =>
      Ok {| r_id := i; r_title := s; r_description := description t;
            r_status := st; r_priority := p; r_created_at := created_at t;
            r_updated_at := updated_at t; r_due_date := due_date t;
            r_assigned_to := assigned_to t |}
  | _, _, _, _ =>
      Invalid (none_error "id" (id t) ++ none_error "title" (title t)
               ++ none_error "status" (status t)
               ++ none_error "priority" (priority t))
  end.

(** The field [tasks: list[TaskResponse]], item by item. *)
Fixpoint TaskResponse_validate_all (tasks : list Task)
  : result (list TaskResponse) :=
  match tasks with
  | [] => Ok []
  | t :: r =>
      match TaskResponse_validate t, TaskResponse_validate_all r with
      | Ok x, Ok xs => Ok (x :: xs)
      | rt, rr => Invalid (errors_of rt ++ errors_of rr)
      end
  end.

(** [TaskListResponse(tasks=tasks, total=total, skip=skip, limit=limit)] *)
Definition TaskListResponse_validate (tasks : list Task)
    (total skip limit_n : Z) : result TaskListResponse :=
  match TaskResponse_validate_all tasks with
  | Ok xs => Ok {| l_tasks := xs; l_total := total; l_skip := skip;
                   l_limit := limit_n |}
  | Invalid e => Invalid e
  end.

(** The task that a response shows. *)
Definition shown (r : TaskResponse) : Task :=
  {| id := Some (r_id r); title := Some (r_title r);
     description := r_description r; status := Some (r_status r);
     priority := Some (r_priority r); created_at := r_created_at r;
     updated_at := r_updated_at r; due_date := r_due_date r;
     assigned_to := r_assigned_to r |}.

(** ** Further predicates *)

(** The key of the first task is below the key of the second. *)
Definition key_lt (a b : Task) : Prop :=
  match id a, id b with
  | Some i, Some j => i < j
  | _, _ => False
  end.

(** The rows are in the order of their keys. *)
Definition ascending (table : list Task) : Prop := StronglySorted key_lt table.

(** The rows are in the order of their keys, which are 1 or more. *)
Definition ordered (table : list Task) : Prop :=
  ascending table
  /\ Forall (fun t => exists k, id t = Some k /\ 1 <= k) table.

(** A string attribute within a length. *)
Definition within (n : nat) (v : option pystr) : Prop :=
  match v with
  | Some s => (List.length s <= n)%nat
  | None => True
  end.

(** The strings of a task are within the lengths of their fields, and the
    title has no whitespace at either end. *)
Definition strings_ok (t : Task) : Prop :=
  within 200 (title t)
  /\ (forall s, title t = Some s -> py.strip s = s)
  /\ within 1000 (description t)
  /\ within 100 (assigned_to t).

(** The page of a list of matching rows. *)
Definition page_of (skip limit_n : Z) (m : list Task) : list Task :=
  firstn (Z.to_nat limit_n) (skipn (Z.to_nat skip) m).

(** A query parameter, or its default. *)
Definition param (default : Z) (v : option Z) : Z :=
  match v with None => default | Some x => x end.

(** A body supplies [null] for a column that is NOT NULL. *)
Definition nulls_a_column (u : TaskUpdate) : Prop :=
  u_title u = Given None \/ u_status u = Given None
  \/ u_priority u = Given None.

(** A body that neither model accepts: a title that is blank or longer
    than 200, a description longer than 1000, a due date not after the time
    of validation, or an assignee longer than 100. *)
Definition unfit (now : datetime) (b : Body) : Prop :=
  (exists s, b_title b = Given (Some s)
             /\ (blank s \/ (200 < List.length s)%nat))
  \/ (exists s, b_description b = Given (Some s)
                /\ (1000 < List.length s)%nat)
  \/ (exists d, b_due_date b = Given (Some (naive d)) /\ d <= now)
  \/ (exists s, b_assigned_to b = Given (Some s)
                /\ (100 < List.length s)%nat).

(** A string field that is Unicode: no lone surrogate in it. *)
Definition unicode (v : supplied pystr) : Prop :=
  forall s, v = Given (Some s) -> py.has_surrogate s = false.

(** A body whose strings are Unicode and whose due date, if any, is
    naive. *)
Definition plain (b : Body) : Prop :=
  unicode (b_title b) /\ unicode (b_description b)
  /\ unicode (b_assigned_to b)
  /\ (forall d o, b_due_date b <> Given (Some (aware d o))).

(** A computation of the session that leaves the committed rows alone. *)
Definition keeps_rows {A : Type} (m : M A) : Prop :=
  forall s, rows (snd (m s)) = rows s.

(** A computation that leaves nothing pending in a session that had
    nothing pending. *)
Definition keeps_clean {A : Type} (m : M A) : Prop :=
  forall s, unit_of_work s = [] -> unit_of_work (snd (m s)) = [].

(** Three rows with the keys 1, 2 and 3. *)
Definition three_rows : list Task :=
  [milk_row; with_id 2 milk_row; with_id 3 milk_row].


(** * Properties *)

(** ** Strings *)

Section Strip.

Lemma lstrip_all_space (s : pystr) :
  py.all_space s = true -> py.lstrip s = [].
Proof.
  induction s as [|c r IH]; simpl; [reflexivity|].
  intros H. apply andb_true_iff in H as [Hc Hr].
  rewrite Hc. auto.
Qed.

Lemma lstrip_nil_all_space (s : pystr) :
  py.lstrip s = [] -> py.all_space s = true.
Proof.
  induction s as [|c r IH]; simpl; [reflexivity|].
  destruct (py.isspace c); simpl; [exact IH | discriminate].
Qed.

(** What is left of the left strip starts with a character that is not
    whitespace. *)
Lemma lstrip_head (s : pystr) (c : Z) (r : pystr) :
  py.lstrip s = c :: r -> py.isspace c = false.
Proof.
  induction s as [|a t IH]; simpl; [discriminate|].
  destruct (py.isspace a) eqn:Ha; [exact IH|].
  intros E. injection E as -> _. exact Ha.
Qed.

Lemma lstrip_fixed (s : pystr) (c : Z) (r : pystr) :
  py.isspace c = false -> py.lstrip (c :: r) = c :: r.
Proof. intros H. simpl. now rewrite H. Qed.

Lemma lstrip_idem (s : pystr) : py.lstrip (py.lstrip s) = py.lstrip s.
Proof.
  destruct (py.lstrip s) as [|c r] eqn:E; [reflexivity|].
  apply lstrip_fixed; [exact r|]. eapply lstrip_head; eauto.
Qed.

Lemma all_space_app (a b : pystr) :
  py.all_space (a ++ b) = py.all_space a && py.all_space b.
Proof. apply forallb_app. Qed.

Lemma all_space_rev (s : pystr) : py.all_space (rev s) = py.all_space s.
Proof.
  induction s as [|c r IH]; simpl; [reflexivity|].
  rewrite all_space_app, IH. simpl. rewrite andb_true_r. apply andb_comm.
Qed.

(** The left strip is a suffix: some whitespace was cut in front. *)
Lemma lstrip_suffix (s : pystr) :
  exists w, py.all_space w = true /\ s = w ++ py.lstrip s.
Proof.
  induction s as [|c r [w [Hw E]]]; simpl.
  - exists []. split; reflexivity.
  - destruct (py.isspace c) eqn:Hc.
    + exists (c :: w). simpl. rewrite Hc, Hw. split; [reflexivity|].
      now rewrite <- E.
    + exists []. split; reflexivity.
Qed.

Lemma rstrip_prefix (s : pystr) :
  exists w, py.all_space w = true /\ s = py.rstrip s ++ w.
Proof.
  unfold py.rstrip.
  destruct (lstrip_suffix (rev s)) as [w [Hw E]].
  exists (rev w). split; [now rewrite all_space_rev|].
  rewrite <- rev_app_distr, <- E. symmetry. apply rev_involutive.
Qed.

Lemma all_space_lstrip (s : pystr) :
  py.all_space (py.lstrip s) = py.all_space s.
Proof.
  destruct (lstrip_suffix s) as [w [Hw E]].
  rewrite E at 2. rewrite all_space_app, Hw. reflexivity.
Qed.

Lemma all_space_rstrip (s : pystr) :
  py.all_space (py.rstrip s) = py.all_space s.
Proof.
  unfold py.rstrip. now rewrite all_space_rev, all_space_lstrip, all_space_rev.
Qed.

Lemma all_space_strip (s : pystr) :
  py.all_space (py.strip s) = py.all_space s.
Proof. unfold py.strip. now rewrite all_space_rstrip, all_space_lstrip. Qed.

Lemma rstrip_nil_iff (s : pystr) :
  py.rstrip s = [] <-> py.all_space s = true.
Proof.
  unfold py.rstrip. split; intros H.
  - rewrite <- all_space_rev. apply lstrip_nil_all_space.
    destruct (py.lstrip (rev s)) as [|c l]; [reflexivity|].
    simpl in H. apply app_eq_nil in H as [_ H]. discriminate.
  - rewrite lstrip_all_space; [reflexivity|]. now rewrite all_space_rev.
Qed.

(** The strip is empty exactly on blank strings. *)
Lemma strip_nil_iff (s : pystr) :
  py.strip s = [] <-> py.all_space s = true.
Proof.
  unfold py.strip. rewrite rstrip_nil_iff. now rewrite all_space_lstrip.
Qed.

Lemma bool_str_strip (s : pystr) :
  py.bool_str (py.strip s) = negb (py.all_space s).
Proof.
  destruct (py.all_space s) eqn:E.
  - apply strip_nil_iff in E. now rewrite E.
  - destruct (py.strip s) eqn:F; [|reflexivity].
    apply strip_nil_iff in F. congruence.
Qed.

Lemma bool_str_blank (s : pystr) :
  py.bool_str s = false -> py.all_space s = true.
Proof. destruct s; [reflexivity | discriminate]. Qed.

(** The test of both title validators. *)
Lemma title_test (s : pystr) :
  negb (py.bool_str s) || negb (py.bool_str (py.strip s))
  = py.all_space s.
Proof.
  rewrite bool_str_strip, negb_involutive.
  destruct (py.bool_str s) eqn:E; simpl; [reflexivity|].
  now rewrite (bool_str_blank _ E).
Qed.

Lemma rstrip_fixed (s : pystr) (c : Z) :
  py.isspace c = false -> py.rstrip (s ++ [c]) = s ++ [c].
Proof.
  intros H. unfold py.rstrip. rewrite rev_app_distr. simpl. rewrite H.
  simpl. now rewrite rev_involutive.
Qed.

(** What is left of the right strip ends with a character that is not
    whitespace. *)
Lemma rstrip_last (s : pystr) :
  py.rstrip s = [] \/
  exists r c, py.rstrip s = r ++ [c] /\ py.isspace c = false.
Proof.
  unfold py.rstrip.
  destruct (py.lstrip (rev s)) as [|c r] eqn:E; [now left|].
  right. exists (rev r), c. split; [reflexivity|].
  eapply lstrip_head; eauto.
Qed.

Lemma rstrip_idem (s : pystr) : py.rstrip (py.rstrip s) = py.rstrip s.
Proof.
  destruct (rstrip_last s) as [E | [r [c [E Hc]]]]; rewrite E.
  - reflexivity.
  - now apply rstrip_fixed.
Qed.

(** The right strip keeps the first character of a string that does not
    start with whitespace. *)
Lemma rstrip_cons (c : Z) (r : pystr) :
  py.isspace c = false -> exists r', py.rstrip (c :: r) = c :: r'.
Proof.
  intros Hc.
  destruct (rstrip_prefix (c :: r)) as [w [Hw E]].
  destruct (py.rstrip (c :: r)) as [|a r'] eqn:F.
  - simpl in E. subst w. simpl in Hw. now rewrite Hc in Hw.
  - simpl in E. injection E as -> _. now exists r'.
Qed.

Lemma lstrip_rstrip_lstrip (s : pystr) :
  py.lstrip (py.rstrip (py.lstrip s)) = py.rstrip (py.lstrip s).
Proof.
  destruct (py.lstrip s) as [|c r] eqn:E; [reflexivity|].
  assert (Hc : py.isspace c = false) by (eapply lstrip_head; eauto).
  destruct (rstrip_cons c r Hc) as [r' F]. rewrite F.
  now apply lstrip_fixed.
Qed.

(** Trimming twice is trimming once. *)
Lemma strip_idem (s : pystr) : py.strip (py.strip s) = py.strip s.
Proof.
  unfold py.strip. rewrite lstrip_rstrip_lstrip. apply rstrip_idem.
Qed.

(** The strip takes whitespace off both ends and nothing else. *)
Lemma strip_spec (s : pystr) :
  exists a b, py.all_space a = true /\ py.all_space b = true
              /\ s = a ++ py.strip s ++ b.
Proof.
  destruct (lstrip_suffix s) as [a [Ha E]].
  destruct (rstrip_prefix (py.lstrip s)) as [b [Hb F]].
  exists a, b. repeat split; try assumption.
  unfold py.strip. now rewrite <- F.
Qed.

End Strip.

(** ** Validation *)

Section Validation.

Lemma blank_dec (s : pystr) : {blank s} + {~ blank s}.
Proof.
  unfold blank. destruct (py.all_space s); [now left | right; discriminate].
Qed.

Lemma create_validate_title_eq (v : pystr) :
  TaskCreate_.validate_title v
  = if py.all_space v
    then value_error "title" "Title cannot be empty or whitespace only"
    else Ok (py.strip v).
Proof. unfold TaskCreate_.validate_title. now rewrite title_test. Qed.

Lemma update_validate_title_eq (v : pystr) :
  TaskUpdate_.validate_title (Some v)
  = if py.all_space v
    then value_error "title" "Title cannot be empty or whitespace only"
    else Ok (Some (py.strip v)).
Proof. unfold TaskUpdate_.validate_title. now rewrite title_test. Qed.

Lemma str_field_ok (f : string) (n : nat) (s x : pystr) :
  str_field f n s = Ok x ->
  x = s /\ py.has_surrogate s = false /\ (List.length s <= n)%nat.
Proof.
  unfold str_field, max_length.
  destruct (py.has_surrogate s); [discriminate|].
  destruct (n <? List.length s)%nat eqn:L; [discriminate|].
  intros E. injection E as <-. apply Nat.ltb_ge in L. auto.
Qed.

Lemma str_field_fit (f : string) (n : nat) (s : pystr) :
  py.has_surrogate s = false -> (List.length s <= n)%nat ->
  str_field f n s = Ok s.
Proof.
  intros U L. unfold str_field, max_length. rewrite U.
  apply Nat.ltb_ge in L. now rewrite L.
Qed.

(** A model is built only if each of its fields is. *)
Lemma TaskCreate_validate_inv (now : datetime) (b : Body)
    (task : TaskCreate) :
  TaskCreate_validate now b = Ok task ->
  TaskCreate_title (b_title b) = Ok (c_title task)
  /\ optional_str "description" 1000 (b_description b)
     = Ok (c_description task)
  /\ with_default "status" pending (b_status b) = Ok (c_status task)
  /\ with_default "priority" medium (b_priority b) = Ok (c_priority task)
  /\ TaskCreate_due_date now (b_due_date b) = Ok (c_due_date task)
  /\ optional_str "assigned_to" 100 (b_assigned_to b)
     = Ok (c_assigned_to task).
Proof.
  unfold TaskCreate_validate.
  destruct (TaskCreate_title _), (optional_str "description" _ _),
    (with_default "status" _ _), (with_default "priority" _ _),
    (TaskCreate_due_date _ _), (optional_str "assigned_to" _ _);
    intros E; try (revert E; destruct (crashed _); discriminate).
  injection E as <-. simpl. repeat split.
Qed.

Lemma TaskUpdate_validate_inv (now : datetime) (b : Body)
    (u : TaskUpdate) :
  TaskUpdate_validate now b = Ok u ->
  TaskUpdate_title (b_title b) = Ok (u_title u)
  /\ supplied_str "description" 1000 (b_description b)
     = Ok (u_description u)
  /\ u_status u = b_status b
  /\ u_priority u = b_priority b
  /\ TaskUpdate_due_date now (b_due_date b) = Ok (u_due_date u)
  /\ supplied_str "assigned_to" 100 (b_assigned_to b)
     = Ok (u_assigned_to u).
Proof.
  unfold TaskUpdate_validate.
  destruct (TaskUpdate_title _), (supplied_str "description" _ _),
    (TaskUpdate_due_date _ _), (supplied_str "assigned_to" _ _);
    intros E; try (revert E; destruct (crashed _); discriminate).
  injection E as <-. simpl. repeat split.
Qed.

(** The model that is built when every field is. *)
Lemma is_ok_ok {A : Type} (r : result A) :
  is_ok r = true -> exists a, r = Ok a.
Proof. destruct r as [a|e]; [now exists a | discriminate]. Qed.


Lemma TaskCreate_validate_is_ok (now : datetime) (b : Body) :
  is_ok (TaskCreate_validate now b)
  = is_ok (TaskCreate_title (b_title b))
    && is_ok (optional_str "description" 1000 (b_description b))
    && is_ok (with_default "status" pending (b_status b))
    && is_ok (with_default "priority" medium (b_priority b))
    && is_ok (TaskCreate_due_date now (b_due_date b))
    && is_ok (optional_str "assigned_to" 100 (b_assigned_to b)).
Proof.
  unfold TaskCreate_validate.
  destruct (TaskCreate_title _), (optional_str "description" _ _),
    (with_default "status" _ _), (with_default "priority" _ _),
    (TaskCreate_due_date _ _), (optional_str "assigned_to" _ _);
    try reflexivity; destruct (crashed _); reflexivity.
Qed.

Lemma TaskUpdate_validate_is_ok (now : datetime) (b : Body) :
  is_ok (TaskUpdate_validate now b)
  = is_ok (TaskUpdate_title (b_title b))
    && is_ok (supplied_str "description" 1000 (b_description b))
    && is_ok (TaskUpdate_due_date now (b_due_date b))
    && is_ok (supplied_str "assigned_to" 100 (b_assigned_to b)).
Proof.
  unfold TaskUpdate_validate.
  destruct (TaskUpdate_title _), (supplied_str "description" _ _),
    (TaskUpdate_due_date _ _), (supplied_str "assigned_to" _ _);
    try reflexivity; destruct (crashed _); reflexivity.
Qed.





Lemma TaskCreate_title_blank (s : pystr) :
  blank s -> exists e, TaskCreate_title (Given (Some s)) = Invalid e.
Proof.
  intros H. unfold TaskCreate_title.
  destruct (str_field "title" 200 s) as [x|e] eqn:E.
  - apply str_field_ok in E as (-> & _). rewrite create_validate_title_eq, H.
    eexists. reflexivity.
  - eexists. reflexivity.
Qed.

Lemma TaskUpdate_title_blank (s : pystr) :
  blank s -> exists e, TaskUpdate_title (Given (Some s)) = Invalid e.
Proof.
  intros H. unfold TaskUpdate_title.
  destruct (str_field "title" 200 s) as [x|e] eqn:E.
  - apply str_field_ok in E as (-> & _). rewrite update_validate_title_eq, H.
    eexists. reflexivity.
  - eexists. reflexivity.
Qed.

Lemma TaskCreate_title_ok (v : supplied pystr) (t : pystr) :
  TaskCreate_title v = Ok t ->
  exists s, v = Given (Some s) /\ ~ blank s /\ t = py.strip s
            /\ (List.length s <= 200)%nat.
Proof.
  destruct v as [|[s|]]; try discriminate. unfold TaskCreate_title.
  destruct (str_field "title" 200 s) as [x|e] eqn:F; [|discriminate].
  apply str_field_ok in F as (-> & _ & L).
  rewrite create_validate_title_eq.
  destruct (py.all_space s) eqn:B; [discriminate|].
  intros E. injection E as <-. exists s. repeat split.
  - unfold blank. congruence.
  - exact L.
Qed.

Lemma TaskCreate_title_unicode (s t : pystr) :
  TaskCreate_title (Given (Some s)) = Ok t -> py.has_surrogate s = false.
Proof.
  unfold TaskCreate_title.
  destruct (str_field "title" 200 s) as [x|e] eqn:F; [|discriminate].
  now apply str_field_ok in F as (_ & U & _).
Qed.

Lemma TaskUpdate_title_ok (v : supplied pystr) (r : supplied pystr) :
  TaskUpdate_title v = Ok r ->
  match v with
  | Unset => r = Unset
  | Given None => r = Given None
  | Given (Some s) =>
      ~ blank s /\ r = Given (Some (py.strip s))
      /\ (List.length s <= 200)%nat
  end.
Proof.
  destruct v as [|[s|]]; try (simpl; intros E; now injection E as <-).
  unfold TaskUpdate_title.
  destruct (str_field "title" 200 s) as [x|e] eqn:F; [|discriminate].
  apply str_field_ok in F as (-> & _ & L).
  rewrite update_validate_title_eq.
  destruct (py.all_space s) eqn:B; [discriminate|].
  intros E. injection E as <-. repeat split.
  - unfold blank. congruence.
  - exact L.
Qed.

End Validation.

(** ** Title and due date *)






(** ** Rows and keys *)

Section Rows.

Lemma result_set_where (k : Z) (table : list Task) :
  result_set (where_id select_Task k) table = filter (id_is k) table.
Proof.
  unfold result_set, where_id, matching. simpl.
  apply filter_ext. intros t. apply andb_true_r.
Qed.

Lemma existsb_first (k : Z) (table : list Task) :
  existsb (id_is k) table
  = match first (filter (id_is k) table) with
    | Some _ => true
    | None => false
    end.
Proof.
  induction table as [|t r IH]; simpl; [reflexivity|].
  destruct (id_is k t); simpl; [reflexivity | exact IH].
Qed.

Lemma id_is_true (k : Z) (t : Task) : id_is k t = true <-> id t = Some k.
Proof.
  unfold id_is. destruct (id t) as [i|]; [|split; discriminate].
  rewrite Z.eqb_eq. split; congruence.
Qed.

Lemma id_is_false (k : Z) (t : Task) : id_is k t = false <-> id t <> Some k.
Proof.
  rewrite <- id_is_true. destruct (id_is k t); split; congruence.
Qed.

Lemma first_filter_some {A : Type} (p : A -> bool) (l : list A) (a : A) :
  first (filter p l) = Some a -> In a l /\ p a = true.
Proof.
  unfold first. intros H.
  assert (I : In a (filter p l)).
  { destruct (filter p l); [discriminate|]. injection H as ->. now left. }
  now apply filter_In in I.
Qed.

Lemma filter_absent (k : Z) (table : list Task) :
  ~ In (Some k) (ids table) -> filter (id_is k) table = [].
Proof.
  induction table as [|t r IH]; simpl; [reflexivity|].
  intros H. destruct (id_is k t) eqn:E.
  - apply id_is_true in E. elim H. now left.
  - apply IH. intros I. apply H. now right.
Qed.

Lemma first_present (k : Z) (table : list Task) :
  In (Some k) (ids table) ->
  exists t, first (filter (id_is k) table) = Some t.
Proof.
  unfold ids. intros H. apply in_map_iff in H as [t [E I]].
  apply id_is_true in E.
  assert (F : In t (filter (id_is k) table)) by now apply filter_In.
  destruct (filter (id_is k) table) as [|x l]; [contradiction|].
  now exists x.
Qed.

(** Under the primary key, the row of a key is the one row with it. *)
Lemma first_unique (k : Z) (table : list Task) (t : Task) :
  NoDup (ids table) -> In t table -> id t = Some k ->
  first (filter (id_is k) table) = Some t.
Proof.
  induction table as [|x r IH]; simpl; [contradiction|].
  intros N I E. inversion N as [|? ? Hx Hr]; subst.
  destruct I as [-> | I].
  - apply id_is_true in E. now rewrite E.
  - destruct (id_is k x) eqn:F.
    + apply id_is_true in F. elim Hx. rewrite F, <- E.
      now apply in_map.
    + now apply IH.
Qed.

Lemma existsb_present (k : Z) (table : list Task) (t : Task) :
  In t table -> id t = Some k -> existsb (id_is k) table = true.
Proof.
  intros I E. apply existsb_exists. exists t. split; [exact I|].
  now apply id_is_true.
Qed.

(** The replaced row is what a query by its key finds. *)
Lemma first_replace_row (k : Z) (o : Task) (table : list Task) (t : Task) :
  In t table -> id t = Some k -> id o = Some k ->
  first (filter (id_is k) (replace_row k o table)) = Some o.
Proof.
  intros I E Eo. apply id_is_true in Eo.
  induction table as [|x r IH]; simpl; [contradiction|].
  destruct (id_is k x) eqn:F.
  - now rewrite Eo.
  - rewrite F. apply IH. destruct I as [-> | I]; [|exact I].
    apply id_is_true in E. congruence.
Qed.

Lemma ids_replace_row (k : Z) (o : Task) (table : list Task) :
  id o = Some k -> ids (replace_row k o table) = ids table.
Proof.
  intros Eo. unfold ids, replace_row. rewrite map_map.
  apply map_ext. intros r. destruct (id_is k r) eqn:F; [|reflexivity].
  apply id_is_true in F. congruence.
Qed.

Lemma max_rowid_bound (table : list Task) (t : Task) (i : Z) :
  In t table -> id t = Some i ->
  exists m, max_rowid table = Some m /\ i <= m.
Proof.
  induction table as [|x r IH]; simpl; [contradiction|].
  intros [-> | I] E.
  - rewrite E. destruct (max_rowid r) as [m|].
    + exists (Z.max i m). split; [reflexivity | lia].
    + exists i. split; [reflexivity | lia].
  - destruct (IH I E) as [m [M L]]. rewrite M.
    destruct (id x) as [j|].
    + exists (Z.max j m). split; [reflexivity | lia].
    + now exists m.
Qed.

(** The key of an insert is the key of no row. *)
Lemma next_rowid_fresh (table : list Task) :
  ~ In (Some (next_rowid table)) (ids table).
Proof.
  unfold ids. intros H. apply in_map_iff in H as [t [E I]].
  destruct (max_rowid_bound table t _ I E) as [m [M L]].
  unfold next_rowid in L. rewrite M in L. lia.
Qed.

Lemma first_inserted (k : Z) (o : Task) (table : list Task) :
  ~ In (Some k) (ids table) -> id o = Some k ->
  first (filter (id_is k) (table ++ [o])) = Some o.
Proof.
  intros H E. rewrite filter_app, (filter_absent k table H). simpl.
  apply id_is_true in E. now rewrite E.
Qed.

Lemma with_keys_nil : with_keys [].
Proof. split; constructor. Qed.

Lemma with_keys_insert (k : Z) (o : Task) (table : list Task) :
  with_keys table -> ~ In (Some k) (ids table) -> id o = Some k ->
  with_keys (table ++ [o]).
Proof.
  intros [K N] H E. split.
  - apply Forall_app. split; [exact K|]. constructor; [congruence|constructor].
  - unfold ids. rewrite map_app. simpl. rewrite E.
    apply NoDup_app.
    + exact N.
    + constructor; [intros []|constructor].
    + intros x I [<-|[]]. contradiction.
Qed.

Lemma with_keys_replace (k : Z) (o : Task) (table : list Task) :
  with_keys table -> id o = Some k -> with_keys (replace_row k o table).
Proof.
  intros [K N] E. split.
  - unfold replace_row. apply Forall_map.
    apply (Forall_impl _ (P := fun t => id t <> None)); [|exact K].
    intros r Hr. destruct (id_is k r); [congruence | exact Hr].
  - now rewrite ids_replace_row.
Qed.

(** Deleting rows keeps the keys distinct. *)
Lemma ids_filter_NoDup (p : Task -> bool) (table : list Task) :
  NoDup (ids table) -> NoDup (ids (filter p table)).
Proof.
  unfold ids. induction table as [|t r IH]; simpl; [intros; constructor|].
  intros N. inversion N as [|? ? Ht Hr]; subst.
  destruct (p t); simpl; [|now apply IH].
  constructor; [|now apply IH].
  intros I. apply Ht. apply in_map_iff in I as [x [E I]].
  apply in_map_iff. exists x. split; [exact E|].
  now apply filter_In in I.
Qed.

Lemma with_keys_delete (p : Task -> bool) (table : list Task) :
  with_keys table -> with_keys (filter p table).
Proof.
  intros [K N]. split.
  - apply Forall_forall. intros t I. apply filter_In in I as [I _].
    revert t I. now apply Forall_forall.
  - now apply ids_filter_NoDup.
Qed.

Lemma fits_int64_iff (z : Z) :
  fits_int64 z = true
  <-> -9223372036854775808 <= z <= 9223372036854775807.
Proof. unfold fits_int64. rewrite andb_true_iff, !Z.leb_le. tauto. Qed.

Lemma fits_int64_below (a z : Z) :
  0 <= z <= a -> fits_int64 a = true -> fits_int64 z = true.
Proof. rewrite !fits_int64_iff. lia. Qed.

Lemma keyed_with_keys (table : list Task) : keyed table -> with_keys table.
Proof. now intros [K _]. Qed.

Lemma milk_row_keyed : keyed [milk_row].
Proof.
  split; [split|]; repeat constructor; simpl; try discriminate; try tauto.
  intros k E. now injection E as <-.
Qed.

Lemma three_rows_keyed : keyed three_rows.
Proof.
  split; [split|]; repeat constructor; simpl; try discriminate;
    try (intuition discriminate);
    intros k E; now injection E as <-.
Qed.

End Rows.

(** ** The persistence operations, computed *)

Section Operations.

(** [get_task] in a session with nothing to flush: the first row of the
    key, or [None], or the [OverflowError] of a key that is of no row and
    not of 64 bits. *)
Lemma get_task_in (k : Z) (s : Session) :
  unit_of_work s = [] ->
  crud.get_task k s
  = match first (filter (id_is k) (rows s)) with
    | Some t => (Return (Some t), logged exec_ s)
    | None =>
        if fits_int64 k then (Return None, logged exec_ s)
        else (Raise OverflowError, logged exec_ s)
    end.
Proof.
  intros U.
  unfold crud.get_task, bind, session_exec, query, ret, bindable, logged.
  rewrite U. cbn [flush keys offset_ limit_ where_id select_Task app
                   fits_opt forallb andb].
  rewrite result_set_where, existsb_first, andb_true_r.
  destruct (first (filter (id_is k) (rows s))) as [t|] eqn:F.
  - rewrite orb_true_r. cbn. now rewrite F.
  - rewrite orb_false_r. destruct (fits_int64 k); cbn; now rewrite ?F.
Qed.

Lemma get_task_eq (k : Z) (table : list Task) :
  crud.get_task k (get_session table)
  = match first (filter (id_is k) table) with
    | Some t => (Return (Some t), looked_up table)
    | None =>
        if fits_int64 k then (Return None, looked_up table)
        else (Raise OverflowError, looked_up table)
    end.
Proof. now rewrite get_task_in. Qed.

(** The loop of [setattr] over the update data leaves the task that the
    partial update describes. *)
Lemma fold_setattr (now : datetime) (u : TaskUpdate) (t : Task) :
  fold_left setattr
    (dict_setitem (dict_exclude_unset u) (updated_at_ (Some now))) t
  = updated now u t.
Proof.
  destruct u as [a b c d e f], t.
  destruct a, b, c, d, e, f; reflexivity.
Qed.

Lemma dict_nil (u : TaskUpdate) :
  dict_exclude_unset u = [] <-> u = TaskUpdate_empty.
Proof.
  split; [|intros ->; reflexivity].
  destruct u as [a b c d e f].
  destruct a, b, c, d, e, f; try discriminate. reflexivity.
Qed.

Lemma update_task_absent (now : datetime) (k : Z) (u : TaskUpdate)
    (table : list Task) :
  first (filter (id_is k) table) = None ->
  crud.update_task now k u (get_session table)
  = if fits_int64 k then (Return None, looked_up table)
    else (Raise OverflowError, looked_up table).
Proof.
  intros H. unfold crud.update_task, bind. rewrite get_task_eq, H.
  destruct (fits_int64 k); reflexivity.
Qed.

Lemma update_task_nothing (now : datetime) (k : Z) (table : list Task)
    (t : Task) :
  first (filter (id_is k) table) = Some t ->
  crud.update_task now k TaskUpdate_empty (get_session table)
  = (Return (Some t), looked_up table).
Proof.
  intros H. unfold crud.update_task, bind. now rewrite get_task_eq, H.
Qed.

(** An update that supplies a field writes the task of [updated], or is
    refused by a NOT NULL column and writes nothing. *)
Lemma update_task_found (now : datetime) (k : Z) (u : TaskUpdate)
    (table : list Task) (t : Task) :
  first (filter (id_is k) table) = Some t ->
  dict_exclude_unset u <> [] ->
  crud.update_task now k u (get_session table)
  = match null_violation (updated now u t) with
    | Some c =>
        (Raise (IntegrityError c),
         {| rows := table; unit_of_work := []; lastrowid := None;
            calls := [exec_; add_; commit_] |})
    | None =>
        (Return (Some (updated now u t)),
         {| rows := replace_row k (updated now u t) table;
            unit_of_work := []; lastrowid := None;
            calls := [exec_; add_; commit_; refresh_] |})
    end.
Proof.
  intros H D.
  destruct (first_filter_some _ _ _ H) as [I E]. apply id_is_true in E.
  unfold crud.update_task, bind. rewrite get_task_eq, H.
  destruct (dict_exclude_unset u) as [|i l] eqn:F; [contradiction|].
  rewrite <- F, fold_setattr.
  unfold session_add, session_commit, looked_up. simpl.
  rewrite E.
  destruct (null_violation (updated now u t)) as [c|]; [reflexivity|].
  rewrite (existsb_present k table t I E).
  unfold session_refresh, ret. simpl. rewrite E.
  fold (replace_row k (updated now u t) table).
  now rewrite (first_replace_row k _ table t I E).
Qed.

Lemma delete_task_absent (k : Z) (table : list Task) :
  first (filter (id_is k) table) = None ->
  crud.delete_task k (get_session table)
  = if fits_int64 k then (Return false, looked_up table)
    else (Raise OverflowError, looked_up table).
Proof.
  intros H. unfold crud.delete_task, bind. rewrite get_task_eq, H.
  destruct (fits_int64 k); reflexivity.
Qed.

Lemma delete_task_found (k : Z) (table : list Task) (t : Task) :
  first (filter (id_is k) table) = Some t ->
  crud.delete_task k (get_session table)
  = (Return true,
     {| rows := filter (fun r => negb (id_is k r)) table;
        unit_of_work := []; lastrowid := None;
        calls := [exec_; delete_; commit_] |}).
Proof.
  intros H.
  destruct (first_filter_some _ _ _ H) as [I E]. apply id_is_true in E.
  unfold crud.delete_task, bind. rewrite get_task_eq, H.
  unfold session_delete, session_commit, ret, looked_up. simpl.
  now rewrite E.
Qed.

Lemma length_lstrip (s : pystr) :
  (List.length (py.lstrip s) <= List.length s)%nat.
Proof.
  induction s as [|c r IH]; simpl; [lia|].
  destruct (py.isspace c); simpl; lia.
Qed.

Lemma length_strip (s : pystr) :
  (List.length (py.strip s) <= List.length s)%nat.
Proof.
  unfold py.strip, py.rstrip. rewrite length_rev.
  etransitivity; [apply length_lstrip|]. rewrite length_rev.
  apply length_lstrip.
Qed.

Lemma optional_str_ok (f : string) (n : nat) (v : supplied pystr)
    (r : option pystr) :
  optional_str f n v = Ok r -> optional_str f n (Given r) = Ok r.
Proof.
  destruct v as [|[s|]]; simpl; try (intros E; now injection E as <-).
  destruct (str_field f n s) as [x|e] eqn:F; [|discriminate].
  intros E. injection E as <-.
  apply str_field_ok in F as (-> & U & L). simpl.
  now rewrite (str_field_fit f n s U L).
Qed.

Lemma has_surrogate_app (a b : pystr) :
  py.has_surrogate (a ++ b) = py.has_surrogate a || py.has_surrogate b.
Proof. apply existsb_app. Qed.

(** Trimming brings no surrogate in. *)
Lemma has_surrogate_strip (s : pystr) :
  py.has_surrogate s = false -> py.has_surrogate (py.strip s) = false.
Proof.
  destruct (strip_spec s) as (a & b & _ & _ & E). intros H.
  rewrite E, !has_surrogate_app in H.
  apply orb_false_iff in H as [_ H]. now apply orb_false_iff in H as [H _].
Qed.

(** A [TaskCreate] that validation built meets the constraints of
    [Task]. *)
Lemma Task_model_validate_ok (now_v now : datetime) (b : Body)
    (task : TaskCreate) :
  TaskCreate_validate now_v b = Ok task ->
  Task_model_validate now task = Ok (new_task now task).
Proof.
  intros V.
  apply TaskCreate_validate_inv in V as (T & D & _ & _ & _ & A).
  pose proof T as T'.
  apply TaskCreate_title_ok in T as (s & B & _ & S & L).
  rewrite B in T'. apply TaskCreate_title_unicode in T'.
  apply optional_str_ok in D. apply optional_str_ok in A.
  unfold Task_model_validate. rewrite D, A.
  rewrite (str_field_fit "title" 200 (c_title task)); [reflexivity| |].
  - rewrite S. now apply has_surrogate_strip.
  - rewrite S. etransitivity; [apply length_strip | exact L].
Qed.

Lemma create_task_eq (now : datetime) (task : TaskCreate)
    (table : list Task) :
  Task_model_validate now task = Ok (new_task now task) ->
  crud.create_task now task (get_session table)
  = (Return (with_id (next_rowid table) (new_task now task)),
     {| rows := table ++ [with_id (next_rowid table) (new_task now task)];
        unit_of_work := []; lastrowid := Some (next_rowid table);
        calls := [add_; commit_; refresh_] |}).
Proof.
  intros V. unfold crud.create_task. rewrite V.
  unfold bind, session_add, session_commit, session_refresh, ret. simpl.
  rewrite (first_inserted (next_rowid table)); [reflexivity| |reflexivity].
  apply next_rowid_fresh.
Qed.

End Operations.

(** ** Listing *)

Section Listing.

Lemma bool_status_some (v : TaskStatus) : bool_status (Some v) = true.
Proof. destruct v; reflexivity. Qed.

Lemma bool_priority_some (v : TaskPriority) : bool_priority (Some v) = true.
Proof. destruct v; reflexivity. Qed.

Lemma matching_clauses (st : option TaskStatus) (pr : option TaskPriority)
    (t : Task) :
  matching (clauses st pr) t = matches st pr t.
Proof.
  unfold matching, clauses, matches.
  destruct st as [v|], pr as [w|]; simpl;
    rewrite ?andb_true_r; reflexivity.
Qed.

Lemma filter_keyed (table : list Task) :
  Forall (fun t => id t <> None) table ->
  filter (fun t => py.bool_obj (id t)) table = table.
Proof.
  induction 1 as [|t r Ht Hr IH]; simpl; [reflexivity|].
  destruct (id t); [|contradiction]. simpl. now rewrite IH.
Qed.

(** [get_tasks] in a new session: the count, then the page, unless skip
    or limit is not of 64 bits. *)
Lemma get_tasks_run (skip limit_n : Z) (st : option TaskStatus)
    (pr : option TaskPriority) (table : list Task) :
  crud.get_tasks skip limit_n st pr (get_session table)
  = if fits_int64 skip && fits_int64 limit_n
    then (Return
            (result_set (limit (offset (clauses st pr) skip) limit_n) table,
             Z.of_nat (List.length
               (filter (fun t => py.bool_obj (id t))
                       (result_set (clauses st pr) table)))),
          {| rows := table; unit_of_work := []; lastrowid := None;
             calls := [exec_; exec_] |})
    else (Raise OverflowError,
          {| rows := table; unit_of_work := []; lastrowid := None;
             calls := [exec_; exec_] |}).
Proof.
  unfold crud.get_tasks, clauses.
  destruct st as [v|], pr as [w|];
    rewrite ?bool_status_some, ?bool_priority_some;
    unfold bind, session_exec_count, session_exec, query, bindable, ret;
    cbn [get_session unit_of_work rows lastrowid calls flush keys offset_
         limit_ offset limit where_ select_Task fits_opt forallb andb app];
    rewrite andb_true_r;
    destruct (fits_int64 skip && fits_int64 limit_n); reflexivity.
Qed.

Lemma get_tasks_eq (skip limit_n : Z) (st : option TaskStatus)
    (pr : option TaskPriority) (table : list Task) :
  fits_int64 skip = true -> fits_int64 limit_n = true ->
  crud.get_tasks skip limit_n st pr (get_session table)
  = (Return
       (result_set (limit (offset (clauses st pr) skip) limit_n) table,
        Z.of_nat (List.length
          (filter (fun t => py.bool_obj (id t))
                  (result_set (clauses st pr) table)))),
     {| rows := table; unit_of_work := []; lastrowid := None;
        calls := [exec_; exec_] |}).
Proof. intros Hs Hl. now rewrite get_tasks_run, Hs, Hl. Qed.

(** What [get_tasks] returned, when it returned. *)
Lemma get_tasks_returned (skip limit_n : Z) (st : option TaskStatus)
    (pr : option TaskPriority) (table : list Task) (tasks : list Task)
    (total : Z) :
  fst (crud.get_tasks skip limit_n st pr (get_session table))
  = Return (tasks, total) ->
  fits_int64 skip = true /\ fits_int64 limit_n = true
  /\ tasks = result_set (limit (offset (clauses st pr) skip) limit_n) table
  /\ total = Z.of_nat (List.length
                (filter (fun t => py.bool_obj (id t))
                        (result_set (clauses st pr) table))).
Proof.
  rewrite get_tasks_run.
  destruct (fits_int64 skip), (fits_int64 limit_n); simpl;
    intros E; try discriminate E.
  injection E as <- <-. auto.
Qed.

Lemma result_set_clauses (st : option TaskStatus)
    (pr : option TaskPriority) (table : list Task) :
  result_set (clauses st pr) table = filter (matches st pr) table.
Proof.
  unfold result_set.
  assert (E : offset_ (clauses st pr) = None /\ limit_ (clauses st pr) = None)
    by (destruct st, pr; split; reflexivity).
  destruct E as [-> ->]. apply filter_ext. apply matching_clauses.
Qed.

Lemma result_set_page (st : option TaskStatus) (pr : option TaskPriority)
    (skip limit_n : Z) (table : list Task) :
  result_set (limit (offset (clauses st pr) skip) limit_n) table
  = let m := skipn (Z.to_nat skip) (filter (matches st pr) table) in
    if limit_n <? 0 then m else firstn (Z.to_nat limit_n) m.
Proof.
  unfold result_set. simpl.
  rewrite (filter_ext _ _ (matching_clauses st pr)). reflexivity.
Qed.

Lemma in_firstn {A : Type} (n : nat) (l : list A) (a : A) :
  In a (firstn n l) -> In a l.
Proof.
  intros H. rewrite <- (firstn_skipn n l). apply in_or_app. now left.
Qed.

Lemma in_skipn {A : Type} (n : nat) (l : list A) (a : A) :
  In a (skipn n l) -> In a l.
Proof.
  intros H. rewrite <- (firstn_skipn n l). apply in_or_app. now right.
Qed.

End Listing.

(** ** One request *)

Section Requests.

(** What a request can do to the table. *)
Lemma handle_cases (r : request) (table : list Task) :
  snd (handle r table) = table
  \/ (exists now_v now b task,
        r = POST_tasks now_v now b
        /\ TaskCreate_validate now_v b = Ok task
        /\ snd (handle r table)
           = table ++ [with_id (next_rowid table) (new_task now task)])
  \/ (exists now_v now k b u t,
        r = PUT_task now_v now k b
        /\ TaskUpdate_validate now_v b = Ok u
        /\ first (filter (id_is k) table) = Some t
        /\ null_violation (updated now u t) = None
        /\ snd (handle r table) = replace_row k (updated now u t) table)
  \/ (exists k,
        r = DELETE_task k
        /\ snd (handle r table) = filter (fun x => negb (id_is k x)) table).
Proof.
  destruct r as [now_v now b | now_v now k b | k]; simpl.
  - unfold main.create_task.
    destruct (TaskCreate_validate now_v b) as [task|e] eqn:V; [|now left].
    rewrite (create_task_eq now task table
               (Task_model_validate_ok now_v now b task V)).
    right. left. exists now_v, now, b, task. auto.
  - unfold main.update_task.
    destruct (TaskUpdate_validate now_v b) as [u|e] eqn:V; [|now left].
    destruct (first (filter (id_is k) table)) as [t|] eqn:F.
    + destruct (dict_exclude_unset u) as [|i l] eqn:D.
      * apply dict_nil in D. subst u.
        rewrite (update_task_nothing now k table t F). now left.
      * rewrite (update_task_found now k u table t F)
          by (rewrite D; discriminate).
        destruct (null_violation (updated now u t)) eqn:N; [now left|].
        right. right. left. exists now_v, now, k, b, u, t. auto.
    + rewrite (update_task_absent now k u table F).
      destruct (fits_int64 k); now left.
  - unfold main.delete_task.
    destruct (first (filter (id_is k) table)) as [t|] eqn:F.
    + rewrite (delete_task_found k table t F). simpl.
      right. right. right. now exists k.
    + rewrite (delete_task_absent k table F).
      destruct (fits_int64 k); now left.
Qed.

Lemma stripped_title_ok (s : pystr) :
  ~ blank s ->
  py.bool_str (py.strip s) && py.bool_str (py.strip (py.strip s)) = true.
Proof.
  intros B. rewrite strip_idem, bool_str_strip.
  unfold blank in B. now destruct (py.all_space s).
Qed.

Lemma task_ok_iff (t : Task) :
  task_ok t = true <-> title_ok t = true /\ null_violation t = None.
Proof.
  unfold task_ok, status_ok, priority_ok, null_violation, title_ok.
  destruct (title t) as [s|], (status t) as [[]|], (priority t) as [[]|];
    rewrite ?andb_true_r, ?andb_false_r; intuition congruence.
Qed.

Lemma created_ok (now_v now : datetime) (b : Body) (task : TaskCreate)
    (k : Z) :
  TaskCreate_validate now_v b = Ok task ->
  task_ok (with_id k (new_task now task)) = true.
Proof.
  intros V. apply TaskCreate_validate_inv in V as (T & _).
  apply TaskCreate_title_ok in T as (s & _ & B & S & _).
  apply task_ok_iff. split; [|reflexivity].
  unfold title_ok. simpl. rewrite S. now apply stripped_title_ok.
Qed.

Lemma updated_ok (now_v now : datetime) (b : Body) (u : TaskUpdate)
    (t : Task) :
  TaskUpdate_validate now_v b = Ok u ->
  task_ok t = true ->
  null_violation (updated now u t) = None ->
  task_ok (updated now u t) = true.
Proof.
  intros V Ht N. apply task_ok_iff. split; [|exact N].
  apply task_ok_iff in Ht as [Ht _].
  apply TaskUpdate_validate_inv in V as (T & _).
  apply TaskUpdate_title_ok in T.
  unfold title_ok in *. simpl.
  unfold null_violation in N. simpl in N.
  destruct (b_title b) as [|[s|]].
  - rewrite T. exact Ht.
  - destruct T as (B & -> & _). simpl. now apply stripped_title_ok.
  - rewrite T in N |- *. simpl in N. discriminate.
Qed.

(** A request keeps every row within the data model. *)
Lemma handle_ok (r : request) (table : list Task) :
  Forall (fun t => task_ok t = true) table ->
  Forall (fun t => task_ok t = true) (snd (handle r table)).
Proof.
  intros H.
  destruct (handle_cases r table)
    as [-> | [(now_v & now & b & task & _ & V & ->)
           | [(now_v & now & k & b & u & t & _ & V & F & N & ->)
             | (k & _ & ->)]]].
  - exact H.
  - apply Forall_app. split; [exact H|].
    constructor; [|constructor]. now apply (created_ok now_v now b).
  - unfold replace_row. apply Forall_map.
    apply first_filter_some in F as [I _].
    assert (Ht : task_ok t = true)
      by exact (proj1 (Forall_forall _ _) H t I).
    apply (Forall_impl _ (P := fun x => task_ok x = true)); [|exact H].
    intros x Hx. destruct (id_is k x); [|exact Hx].
    now apply (updated_ok now_v now b).
  - apply Forall_forall. intros x I. apply filter_In in I as [I _].
    exact (proj1 (Forall_forall _ _) H x I).
Qed.

(** A request keeps the primary key. *)
Lemma handle_with_keys (r : request) (table : list Task) :
  with_keys table -> with_keys (snd (handle r table)).
Proof.
  intros H.
  destruct (handle_cases r table)
    as [-> | [(now_v & now & b & task & _ & V & ->)
           | [(now_v & now & k & b & u & t & _ & V & F & N & ->)
             | (k & _ & ->)]]].
  - exact H.
  - apply (with_keys_insert (next_rowid table)); [exact H| |reflexivity].
    apply next_rowid_fresh.
  - apply with_keys_replace; [exact H|]. simpl.
    apply first_filter_some in F as [_ E]. now apply id_is_true.
  - now apply with_keys_delete.
Qed.

Lemma run_ok (rs : list request) (table : list Task) :
  Forall (fun t => task_ok t = true) table ->
  Forall (fun t => task_ok t = true) (run rs table).
Proof.
  revert table. induction rs as [|r rs IH]; intros table H; simpl.
  - exact H.
  - apply IH. now apply handle_ok.
Qed.

Lemma run_with_keys (rs : list request) (table : list Task) :
  with_keys table -> with_keys (run rs table).
Proof.
  revert table. induction rs as [|r rs IH]; intros table H; simpl.
  - exact H.
  - apply IH. now apply handle_with_keys.
Qed.

Lemma run_app (rs rs' : list request) (table : list Task) :
  run (rs ++ rs') table = run rs' (run rs table).
Proof. unfold run. apply fold_left_app. Qed.

(** Every store that the requests can reach meets its schema. *)
Lemma reachable_schema_ok (table : list Task) :
  reachable table -> schema_ok table.
Proof.
  intros [rs <-]. split.
  - apply run_with_keys, with_keys_nil.
  - assert (H : Forall (fun t => task_ok t = true) (run rs []))
      by (apply run_ok; constructor).
    apply (Forall_impl _ (P := fun t => task_ok t = true)); [|exact H].
    intros t Ht. now apply task_ok_iff in Ht.
Qed.

End Requests.

(** ** The data model is kept *)

(** C1.  In every store that the requests can reach, and after any further
    sequence of create, update and delete requests, every row has a title
    that is a string, not empty and not only whitespace, a status among the
    four of [TaskStatus] and a priority among the four of [TaskPriority].
    An update that succeeds is one such request. *)
Theorem persisted_tasks_valid (table : list Task) (rs : list request) :
  reachable table ->
  Forall (fun t => task_ok t = true) (run rs table).
Proof.
  intros [rs0 <-]. rewrite <- run_app. apply run_ok. constructor.
Qed.

Lemma persisted_tasks_valid_witness :
  reachable []
  /\ Forall (fun t => task_ok t = true)
       (run [POST_tasks 10 11 buy_milk; PUT_task 20 21 1 null_title;
             POST_tasks 30 31 buy_milk; DELETE_task 1] []).
Proof.
  assert (R : reachable []) by (exists []; reflexivity).
  split; [exact R|]. apply persisted_tasks_valid. exact R.
Defined.

(** ** Update *)

(** C2.  For an existing id, the update that supplies no field returns the
    stored task as it is, [updated_at] included, and its session has made
    one call, the query: nothing was added, nothing committed, and the table
    is the same.  The body without fields is validated to that update, and
    the handler answers 200 with the stored task. *)
Theorem update_without_fields (table : list Task) (task_id : Z)
    (now_v now : datetime) :
  In (Some task_id) (ids table) ->
  exists t,
    In t table /\ id t = Some task_id
    /\ crud.update_task now task_id TaskUpdate_empty (get_session table)
       = (Return (Some t), looked_up table)
    /\ TaskUpdate_validate now_v empty_body = Ok TaskUpdate_empty
    /\ main.update_task now_v now task_id empty_body table
       = ({| status_code := 200; body := task_body t |}, table).
Proof.
  intros H. destruct (first_present task_id table H) as [t F].
  destruct (first_filter_some _ _ _ F) as [I E]. apply id_is_true in E.
  exists t. repeat split; try assumption.
  - apply (update_task_nothing now task_id table t F).
  - unfold main.update_task.
    change (TaskUpdate_validate now_v empty_body) with (Ok TaskUpdate_empty).
    cbv iota. now rewrite (update_task_nothing now task_id table t F).
Qed.

Lemma update_without_fields_witness :
  In (Some 1) (ids [milk_row])
  /\ exists t,
       In t [milk_row] /\ id t = Some 1
       /\ crud.update_task 21 1 TaskUpdate_empty (get_session [milk_row])
          = (Return (Some t), looked_up [milk_row])
       /\ TaskUpdate_validate 20 empty_body = Ok TaskUpdate_empty
       /\ main.update_task 20 21 1 empty_body [milk_row]
          = ({| status_code := 200; body := task_body t |}, [milk_row]).
Proof.
  assert (H : In (Some 1) (ids [milk_row])) by (left; reflexivity).
  split; [exact H|]. exact (update_without_fields [milk_row] 1 20 21 H).
Defined.

(** C3, as stated, fails: an update that supplies [null] for [status]
    together with a description changes neither; the commit is refused
    and the row stays as it was. *)
Lemma update_null_status_changes_nothing :
  In (Some 1) (ids [milk_row])
  /\ null_status <> TaskUpdate_empty
  /\ crud.update_task 21 1 null_status (get_session [milk_row])
     = (Raise (IntegrityError "task.status"),
        {| rows := [milk_row]; unit_of_work := []; lastrowid := None;
           calls := [exec_; add_; commit_] |})
  /\ ~ (exists t s,
          crud.update_task 21 1 null_status (get_session [milk_row])
          = (Return (Some t), s)).
Proof.
  split; [left; reflexivity|]. split; [discriminate|].
  split; [reflexivity|]. intros (t & s & E). discriminate E.
Qed.

(** C3, amended.  For an existing id and an update that supplies at least
    one field and no [null] for [title], [status] or [priority], the update
    returns and stores the task in which the fields supplied have their new
    value and [updated_at] is the time of the update; the fields not
    supplied, [id] and [created_at] are as before, and so is every other
    row. *)
Theorem update_changes_supplied_fields (table : list Task) (task_id : Z)
    (t : Task) (now : datetime) (u : TaskUpdate) :
  NoDup (ids table) -> In t table -> id t = Some task_id -> not_null t ->
  u <> TaskUpdate_empty ->
  u_title u <> Given None -> u_status u <> Given None ->
  u_priority u <> Given None ->
  crud.update_task now task_id u (get_session table)
  = (Return (Some (updated now u t)),
     {| rows := replace_row task_id (updated now u t) table;
        unit_of_work := []; lastrowid := None;
        calls := [exec_; add_; commit_; refresh_] |})
  /\ id (updated now u t) = id t
  /\ created_at (updated now u t) = created_at t
  /\ updated_at (updated now u t) = Some now
  /\ (u_title u = Unset -> title (updated now u t) = title t)
  /\ (u_description u = Unset ->
      description (updated now u t) = description t)
  /\ (u_status u = Unset -> status (updated now u t) = status t)
  /\ (u_priority u = Unset -> priority (updated now u t) = priority t)
  /\ (u_due_date u = Unset -> due_date (updated now u t) = due_date t)
  /\ (u_assigned_to u = Unset ->
      assigned_to (updated now u t) = assigned_to t).
Proof.
  intros N I E Nt D Ht Hs Hp.
  split; [|repeat split; simpl; intros ->; reflexivity].
  rewrite (update_task_found now task_id u table t).
  - assert (V : null_violation (updated now u t) = None).
    { unfold not_null, null_violation in *. simpl.
      destruct (u_title u) as [|[x|]], (u_status u) as [|[y|]],
        (u_priority u) as [|[z|]]; simpl; try congruence;
        destruct (title t), (status t), (priority t); congruence. }
    now rewrite V.
  - now apply first_unique.
  - intros F. apply D. now apply dict_nil.
Qed.

Lemma update_changes_supplied_fields_witness :
  crud.update_task 21 1 set_completed (get_session [milk_row])
  = (Return (Some (updated 21 set_completed milk_row)),
     {| rows := replace_row 1 (updated 21 set_completed milk_row) [milk_row];
        unit_of_work := []; lastrowid := None;
        calls := [exec_; add_; commit_; refresh_] |}).
Proof.
  apply (update_changes_supplied_fields [milk_row] 1 milk_row 21
           set_completed).
  - repeat constructor. simpl. tauto.
  - left. reflexivity.
  - reflexivity.
  - reflexivity.
  - discriminate.
  - discriminate.
  - discriminate.
  - discriminate.
Defined.

(** ** Absent ids *)

(** C4, as stated, fails for an id that is not a signed 64-bit integer:
    the path parameter is an unbounded [int], the driver cannot bind it, and
    the three operations raise [OverflowError] where the claim has them
    return; the three handlers answer 500, not 404. *)
Lemma absent_id_outside_int64_raises :
  ~ In (Some 9223372036854775808) (ids [milk_row])
  /\ crud.get_task 9223372036854775808 (get_session [milk_row])
     = (Raise OverflowError, looked_up [milk_row])
  /\ crud.update_task 21 9223372036854775808 set_completed
       (get_session [milk_row])
     = (Raise OverflowError, looked_up [milk_row])
  /\ crud.delete_task 9223372036854775808 (get_session [milk_row])
     = (Raise OverflowError, looked_up [milk_row])
  /\ main.read_task 9223372036854775808 [milk_row]
     = (internal_error, [milk_row])
  /\ main.update_task 20 21 9223372036854775808 empty_body [milk_row]
     = (internal_error, [milk_row])
  /\ main.delete_task 9223372036854775808 [milk_row]
     = (internal_error, [milk_row])
  /\ status_code internal_error = 500.
Proof.
  split; [intros [E|[]]; discriminate E|]. repeat split.
Qed.

(** C4, amended.  For an id within the signed 64-bit integers that no row
    has, [get_task] returns [None], [update_task] returns [None] and
    [delete_task] returns [False]; each returns rather than raises, its
    session has only run the query, and the table is unchanged.  The three
    handlers answer 404 "Task not found" (the update handler once its body
    is validated) and leave the table as it is. *)
Theorem absent_id_not_found (table : list Task) (task_id : Z) :
  fits_int64 task_id = true ->
  ~ In (Some task_id) (ids table) ->
  crud.get_task task_id (get_session table)
  = (Return None, looked_up table)
  /\ (forall now u,
        crud.update_task now task_id u (get_session table)
        = (Return None, looked_up table))
  /\ crud.delete_task task_id (get_session table)
     = (Return false, looked_up table)
  /\ main.read_task task_id table = (not_found, table)
  /\ (forall now_v now b u,
        TaskUpdate_validate now_v b = Ok u ->
        main.update_task now_v now task_id b table = (not_found, table))
  /\ main.delete_task task_id table = (not_found, table)
  /\ status_code not_found = 404.
Proof.
  intros B H.
  assert (F : first (filter (id_is task_id) table) = None)
    by now rewrite (filter_absent task_id table H).
  assert (G : crud.get_task task_id (get_session table)
              = (Return None, looked_up table))
    by now rewrite get_task_eq, F, B.
  assert (U : forall now u,
            crud.update_task now task_id u (get_session table)
            = (Return None, looked_up table))
    by (intros now u; now rewrite (update_task_absent now task_id u table F), B).
  assert (D : crud.delete_task task_id (get_session table)
              = (Return false, looked_up table))
    by now rewrite (delete_task_absent task_id table F), B.
  repeat split.
  - exact G.
  - exact U.
  - exact D.
  - unfold main.read_task. now rewrite G.
  - intros now_v now b u V. unfold main.update_task. now rewrite V, U.
  - unfold main.delete_task. now rewrite D.
Qed.

Lemma absent_id_not_found_witness :
  fits_int64 2 = true
  /\ ~ In (Some 2) (ids [milk_row])
  /\ crud.delete_task 2 (get_session [milk_row])
     = (Return false, looked_up [milk_row])
  /\ main.read_task 2 [milk_row] = (not_found, [milk_row]).
Proof.
  assert (H : ~ In (Some 2) (ids [milk_row])).
  { simpl. intros [E|[]]. discriminate E. }
  split; [reflexivity|]. split; [exact H|].
  destruct (absent_id_not_found [milk_row] 2 eq_refl H)
    as (_ & _ & D & R & _).
  split; [exact D | exact R].
Defined.

(** ** Listing *)

(** C5, as stated, fails for a limit below zero: SQLite reads it as no
    limit, so the page of a one-row store with limit -1 has one row, which
    is more than the limit.  It also fails for a skip that is not a signed
    64-bit integer: the driver cannot bind it, and [get_tasks] raises
    [OverflowError] where the claim has it return a total. *)
Lemma page_exceeds_negative_limit :
  0 <= 0 /\ keyed [milk_row]
  /\ fst (crud.get_tasks 0 (-1) None None (get_session [milk_row]))
     = Return ([milk_row], 1)
  /\ ~ (Z.of_nat (List.length [milk_row]) <= -1)
  /\ 0 <= 9223372036854775808
  /\ fst (crud.get_tasks 9223372036854775808 1 None None
            (get_session [milk_row]))
     = Raise OverflowError.
Proof.
  split; [lia|]. split; [apply milk_row_keyed|].
  split; [reflexivity|]. split; [simpl; lia|].
  split; [lia | reflexivity].
Qed.

(** C5, amended.  For every store whose rows have their key, every pair of
    optional filters and every skip and limit within the signed 64-bit
    integers, [get_tasks] returns, and its total is the number of rows that
    match the filters, whatever skip and limit are.  For skip >= 0 and
    limit >= 0 the page is the first limit rows of the matching rows after
    the first skip of them: at most limit rows, each a row of the store
    that matches. *)
Theorem list_total_and_page (table : list Task) (st : option TaskStatus)
    (pr : option TaskPriority) :
  with_keys table ->
  (forall skip limit_n,
      fits_int64 skip = true -> fits_int64 limit_n = true ->
      exists tasks,
      crud.get_tasks skip limit_n st pr (get_session table)
      = (Return (tasks,
                 Z.of_nat (List.length (filter (matches st pr) table))),
         {| rows := table; unit_of_work := []; lastrowid := None;
            calls := [exec_; exec_] |}))
  /\ (forall skip limit_n, 0 <= skip -> 0 <= limit_n ->
      fits_int64 skip = true -> fits_int64 limit_n = true ->
      exists tasks,
        fst (crud.get_tasks skip limit_n st pr (get_session table))
        = Return (tasks,
                  Z.of_nat (List.length (filter (matches st pr) table)))
        /\ tasks = firstn (Z.to_nat limit_n)
                     (skipn (Z.to_nat skip) (filter (matches st pr) table))
        /\ Z.of_nat (List.length tasks) <= limit_n
        /\ (forall t, In t tasks -> In t table /\ matches st pr t = true)).
Proof.
  intros [K _].
  assert (T : forall skip limit_n,
    fits_int64 skip = true -> fits_int64 limit_n = true ->
    crud.get_tasks skip limit_n st pr (get_session table)
    = (Return (result_set (limit (offset (clauses st pr) skip) limit_n) table,
               Z.of_nat (List.length (filter (matches st pr) table))),
       {| rows := table; unit_of_work := []; lastrowid := None;
          calls := [exec_; exec_] |})).
  { intros skip limit_n Bs Bl.
    rewrite (get_tasks_eq skip limit_n st pr table Bs Bl), result_set_clauses.
    rewrite filter_keyed; [reflexivity|].
    apply Forall_forall. intros t I. apply filter_In in I as [I _].
    exact (proj1 (Forall_forall _ _) K t I). }
  split.
  - intros skip limit_n Bs Bl. eexists. now apply T.
  - intros skip limit_n Hs Hl Bs Bl. eexists. rewrite (T _ _ Bs Bl).
    simpl fst.
    rewrite result_set_page. cbv zeta.
    destruct (Z.ltb_spec limit_n 0) as [L|_]; [lia|].
    split; [reflexivity|]. split; [reflexivity|]. split.
    + rewrite length_firstn. lia.
    + intros t I. apply in_firstn, in_skipn in I.
      now apply filter_In in I.
Qed.

Lemma list_total_and_page_witness :
  with_keys [milk_row; with_id 2 milk_row; with_id 3 milk_row]
  /\ exists tasks,
       fst (crud.get_tasks 0 1 None None
              (get_session [milk_row; with_id 2 milk_row;
                            with_id 3 milk_row]))
       = Return (tasks, 3)
       /\ tasks = [milk_row].
Proof.
  assert (K : with_keys [milk_row; with_id 2 milk_row; with_id 3 milk_row]).
  { split; repeat constructor; simpl; try discriminate;
      intuition discriminate. }
  split; [exact K|].
  destruct (list_total_and_page _ None None K) as [_ P].
  destruct (P 0 1 ltac:(lia) ltac:(lia) eq_refl eq_refl)
    as (tasks & E & F & _).
  exists tasks. split; [exact E | exact F].
Defined.

(** ** Create *)

Section Create.

Lemma NoDup_ids_insert (k : Z) (o : Task) (table : list Task) :
  NoDup (ids table) -> ~ In (Some k) (ids table) -> id o = Some k ->
  NoDup (ids (table ++ [o])).
Proof.
  intros N H E. unfold ids. rewrite map_app. simpl. rewrite E.
  apply NoDup_app.
  - exact N.
  - constructor; [intros []|constructor].
  - intros x I [<-|[]]. contradiction.
Qed.

Lemma status_default (now : datetime) (b : Body) (task : TaskCreate) :
  TaskCreate_validate now b = Ok task ->
  (b_status b = Unset -> c_status task = pending)
  /\ (b_priority b = Unset -> c_priority task = medium).
Proof.
  intros V. apply TaskCreate_validate_inv in V as (_ & _ & S & P & _).
  split; intros E; [rewrite E in S | rewrite E in P]; simpl in *;
    congruence.
Qed.

End Create.

(** C8, as stated, fails: the table has no AUTOINCREMENT, and the key of
    a deleted last row is given again.  After a creation that was given id
    1 and the deletion of that task, the next creation returns a task with
    id 1, an id that has been used before. *)
Lemma rowid_given_again_after_delete :
  ids (run [POST_tasks 10 11 buy_milk] []) = [Some 1]
  /\ run [POST_tasks 10 11 buy_milk; DELETE_task 1] [] = []
  /\ (exists task t s,
        TaskCreate_validate 30 buy_milk = Ok task
        /\ crud.create_task 31 task
             (get_session (run [POST_tasks 10 11 buy_milk; DELETE_task 1] []))
           = (Return t, s)
        /\ id t = Some 1)
  /\ ids (run [POST_tasks 10 11 buy_milk; DELETE_task 1;
              POST_tasks 30 31 buy_milk] []) = [Some 1].
Proof.
  split; [reflexivity|]. split; [reflexivity|]. split; [|reflexivity].
  eexists _, _, _. repeat split.
Qed.

(** C8, amended.  For every valid creation input, [create_task] returns a
    task that is now the last row of the table.  Its id is the id of no row
    that is in the store at the time of the creation, so ids that were
    distinct stay distinct; [created_at] is the time of the creation,
    [updated_at] is [None], and [status] and [priority] are [pending] and
    [medium] when the input leaves them out. *)
Theorem create_assigns_fresh_id (table : list Task) (now_v now : datetime)
    (b : Body) (task : TaskCreate) :
  TaskCreate_validate now_v b = Ok task ->
  exists t k s,
    crud.create_task now task (get_session table) = (Return t, s)
    /\ rows s = table ++ [t]
    /\ id t = Some k
    /\ ~ In (Some k) (ids table)
    /\ (forall r, In r table -> id r <> id t)
    /\ (NoDup (ids table) -> NoDup (ids (rows s)))
    /\ created_at t = now
    /\ updated_at t = None
    /\ (b_status b = Unset -> status t = Some pending)
    /\ (b_priority b = Unset -> priority t = Some medium).
Proof.
  intros V.
  pose proof (next_rowid_fresh table) as F.
  destruct (status_default now_v b task V) as [S P].
  eexists _, (next_rowid table), _.
  split; [apply create_task_eq, (Task_model_validate_ok now_v now b task V)|].
  simpl. repeat split; try assumption.
  - intros r I E. apply F. rewrite <- E. now apply in_map.
  - intros N. now apply (NoDup_ids_insert (next_rowid table)).
  - intros E. now rewrite S.
  - intros E. now rewrite P.
Qed.

Lemma create_assigns_fresh_id_witness :
  TaskCreate_validate 30 buy_milk
  = Ok {| c_title := py.str "Buy milk"; c_description := None;
          c_status := pending; c_priority := high; c_due_date := None;
          c_assigned_to := None |}
  /\ exists t k s,
       crud.create_task 31
         {| c_title := py.str "Buy milk"; c_description := None;
            c_status := pending; c_priority := high; c_due_date := None;
            c_assigned_to := None |} (get_session [milk_row])
       = (Return t, s)
       /\ rows s = [milk_row] ++ [t] /\ id t = Some k
       /\ ~ In (Some k) (ids [milk_row]).
Proof.
  split; [reflexivity|].
  destruct (create_assigns_fresh_id [milk_row] 30 31 buy_milk _ eq_refl)
    as (t & k & s & E & R & I & F & _).
  exists t, k, s. auto.
Defined.

(** C9.  Round trip.  For every valid creation input, [get_task] with the
    id that [create_task] assigned returns the task that [create_task]
    returned, in the same session and in a later one, and so does the read
    handler; its six input fields are those of the validated input, and
    its id and timestamps those assigned at creation. *)
Theorem create_then_get (table : list Task) (now_v now : datetime)
    (b : Body) (task : TaskCreate) :
  TaskCreate_validate now_v b = Ok task ->
  exists t k s,
    crud.create_task now task (get_session table) = (Return t, s)
    /\ id t = Some k
    /\ fst (crud.get_task k s) = Return (Some t)
    /\ fst (crud.get_task k (get_session (rows s))) = Return (Some t)
    /\ main.read_task k (rows s)
       = ({| status_code := 200; body := task_body t |}, rows s)
    /\ title t = Some (c_title task)
    /\ description t = c_description task
    /\ status t = Some (c_status task)
    /\ priority t = Some (c_priority task)
    /\ due_date t = c_due_date task
    /\ assigned_to t = c_assigned_to task
    /\ created_at t = now
    /\ updated_at t = None.
Proof.
  intros V.
  pose proof (next_rowid_fresh table) as F.
  assert (G : first (filter (id_is (next_rowid table))
                       (table ++ [with_id (next_rowid table)
                                          (new_task now task)]))
              = Some (with_id (next_rowid table) (new_task now task)))
    by now apply first_inserted.
  eexists _, (next_rowid table), _.
  split; [apply create_task_eq, (Task_model_validate_ok now_v now b task V)|].
  split; [reflexivity|].
  split; [rewrite get_task_in by reflexivity; cbn [rows]; now rewrite G|].
  split; [cbn [rows]; now rewrite get_task_eq, G|].
  split; [|repeat split].
  unfold main.read_task. cbn [rows]. now rewrite get_task_eq, G.
Qed.

Lemma create_then_get_witness :
  TaskCreate_validate 10 buy_milk
  = Ok {| c_title := py.str "Buy milk"; c_description := None;
          c_status := pending; c_priority := high; c_due_date := None;
          c_assigned_to := None |}
  /\ exists t k s,
       crud.create_task 11
         {| c_title := py.str "Buy milk"; c_description := None;
            c_status := pending; c_priority := high; c_due_date := None;
            c_assigned_to := None |} (get_session [])
       = (Return t, s)
       /\ id t = Some k
       /\ fst (crud.get_task k (get_session (rows s))) = Return (Some t).
Proof.
  split; [reflexivity|].
  destruct (create_then_get [] 10 11 buy_milk _ eq_refl)
    as (t & k & s & E & I & _ & G & _).
  exists t, k, s. auto.
Defined.

(** ** Explicit null *)

(** C10, as stated, fails: after an update of an existing task whose body
    is [{"title": null}], the body has passed validation (the answer is not
    422) but the stored title is not [None]: the handler answers 500 and the
    row is as before. *)
Lemma null_title_is_not_stored :
  In (Some 1) (ids [milk_row])
  /\ main.update_task 20 21 1 null_title [milk_row]
     = (internal_error, [milk_row])
  /\ map title (snd (main.update_task 20 21 1 null_title [milk_row]))
     = [Some (py.str "Buy milk")].
Proof.
  split; [left; reflexivity|]. split; reflexivity.
Qed.

(** C10, amended.  An update body that supplies [null] for [title],
    [status] or [priority] passes validation with the [null] kept, and the
    [null] is an entry of the update data like any supplied value, not
    taken for a field left out.  For an existing id the update then sets
    the attribute to [None] and tries to commit; the table refuses a NULL
    in these columns, so [update_task] raises an integrity error, the
    handler answers 500, and every row is as before. *)
Theorem explicit_null_reaches_the_store (table : list Task) (task_id : Z)
    (now : datetime) (u : TaskUpdate) :
  In (Some task_id) (ids table) ->
  u_title u = Given None \/ u_status u = Given None
  \/ u_priority u = Given None ->
  TaskUpdate_title (Given None) = Ok (Given None)
  /\ (forall now_v b u', TaskUpdate_validate now_v b = Ok u' ->
        (b_title b = Given None -> u_title u' = Given None)
        /\ u_status u' = b_status b /\ u_priority u' = b_priority b)
  /\ (u_title u = Given None -> In (title_ None) (dict_exclude_unset u))
  /\ (u_status u = Given None -> In (status_ None) (dict_exclude_unset u))
  /\ (u_priority u = Given None ->
      In (priority_ None) (dict_exclude_unset u))
  /\ exists c,
       crud.update_task now task_id u (get_session table)
       = (Raise (IntegrityError c),
          {| rows := table; unit_of_work := []; lastrowid := None;
             calls := [exec_; add_; commit_] |})
       /\ (forall now_v b, TaskUpdate_validate now_v b = Ok u ->
           main.update_task now_v now task_id b table
           = (internal_error, table)).
Proof.
  intros H N.
  split; [reflexivity|]. split.
  { intros now_v b u' V.
    apply TaskUpdate_validate_inv in V as (T & _ & S & P & _).
    repeat split; try assumption.
    intros E. rewrite E in T. simpl in T. congruence. }
  split; [|split; [|split]];
    try (intros E; unfold dict_exclude_unset; rewrite E;
         rewrite !in_app_iff; simpl; tauto).
  destruct (first_present task_id table H) as [t F].
  assert (D : dict_exclude_unset u <> []).
  { intros D. apply dict_nil in D. subst u.
    destruct N as [N|[N|N]]; discriminate N. }
  rewrite (update_task_found now task_id u table t F D).
  assert (V : exists c, null_violation (updated now u t) = Some c).
  { unfold null_violation. simpl.
    destruct N as [N|[N|N]]; rewrite N; simpl.
    - eexists. reflexivity.
    - destruct (field_after (u_title u) (title t)); eexists; reflexivity.
    - destruct (field_after (u_title u) (title t)),
        (field_after (u_status u) (status t)); eexists; reflexivity. }
  destruct V as [c V]. rewrite V. exists c. split; [reflexivity|].
  intros now_v b W. unfold main.update_task. rewrite W.
  rewrite (update_task_found now task_id u table t F D).
  now rewrite V.
Qed.

Lemma explicit_null_reaches_the_store_witness :
  In (Some 1) (ids [milk_row])
  /\ exists c,
       crud.update_task 21 1 null_status (get_session [milk_row])
       = (Raise (IntegrityError c),
          {| rows := [milk_row]; unit_of_work := []; lastrowid := None;
             calls := [exec_; add_; commit_] |}).
Proof.
  assert (H : In (Some 1) (ids [milk_row])) by (left; reflexivity).
  split; [exact H|].
  destruct (explicit_null_reaches_the_store [milk_row] 1 21 null_status H
              (or_intror (or_introl eq_refl)))
    as (_ & _ & _ & _ & _ & c & E & _).
  now exists c.
Defined.

(** * Further properties of the operations *)

(** ** Delete *)

Section Delete.

Lemma filter_unique (k : Z) (table : list Task) (t : Task) :
  NoDup (ids table) -> In t table -> id t = Some k ->
  filter (id_is k) table = [t].
Proof.
  induction table as [|x r IH]; simpl; [contradiction|].
  intros N I E. inversion N as [|? ? Hx Hr]; subst.
  destruct (id_is k x) eqn:F.
  - apply id_is_true in F.
    assert (A : ~ In (Some k) (ids r)) by now rewrite <- F.
    rewrite (filter_absent k r A).
    destruct I as [-> | I]; [reflexivity|].
    elim A. rewrite <- E. now apply in_map.
  - destruct I as [-> | I]; [|now apply IH].
    apply id_is_true in E. congruence.
Qed.

Lemma ids_without (k : Z) (table : list Task) :
  ~ In (Some k) (ids (filter (fun r => negb (id_is k r)) table)).
Proof.
  unfold ids. intros H. apply in_map_iff in H as [t [E I]].
  apply filter_In in I as [_ F]. apply id_is_true in E.
  now rewrite E in F.
Qed.

Lemma handlers_absent (k : Z) (table : list Task) :
  fits_int64 k = true -> ~ In (Some k) (ids table) ->
  main.read_task k table = (not_found, table)
  /\ main.delete_task k table = (not_found, table).
Proof.
  intros B H.
  assert (F : first (filter (id_is k) table) = None)
    by now rewrite (filter_absent k table H).
  split.
  - unfold main.read_task. now rewrite get_task_eq, F, B.
  - unfold main.delete_task. now rewrite (delete_task_absent k table F), B.
Qed.

(** A key of a table fits the 64 bits of its column. *)
Lemma keyed_fits (k : Z) (table : list Task) :
  keyed table -> In (Some k) (ids table) -> fits_int64 k = true.
Proof.
  intros [_ B] I. unfold ids in I. apply in_map_iff in I as (t & E & I).
  exact (proj1 (Forall_forall _ _) B t I k E).
Qed.

End Delete.

(** X1.  Deleting an existing task returns [True] after a query, a delete
    and a commit; exactly the row of that id is gone and every other row is
    kept.  After it the id is absent: reading it and deleting it again both
    answer 404. *)
Theorem delete_then_absent (table : list Task) (task_id : Z) :
  keyed table -> In (Some task_id) (ids table) ->
  let table' := filter (fun r => negb (id_is task_id r)) table in
  crud.delete_task task_id (get_session table)
  = (Return true,
     {| rows := table'; unit_of_work := []; lastrowid := None;
        calls := [exec_; delete_; commit_] |})
  /\ ~ In (Some task_id) (ids table')
  /\ (forall r, In r table' <-> In r table /\ id r <> Some task_id)
  /\ S (List.length table') = List.length table
  /\ main.delete_task task_id table
     = ({| status_code := 200;
           body := message_body "Task deleted successfully" |}, table')
  /\ main.read_task task_id table' = (not_found, table')
  /\ main.delete_task task_id table' = (not_found, table').
Proof.
  intros KB H table'.
  pose proof (keyed_fits task_id table KB H) as B.
  destruct KB as [[K N] _].
  destruct (first_present task_id table H) as [t F].
  destruct (first_filter_some _ _ _ F) as [I E]. apply id_is_true in E.
  pose proof (ids_without task_id table) as A. fold table' in A.
  destruct (handlers_absent task_id table' B A) as [R D].
  repeat split; try assumption.
  - apply (delete_task_found task_id table t F).
  - apply filter_In in H0. tauto.
  - apply filter_In in H0 as [_ G].
    intros G'. apply id_is_true in G'. now rewrite G' in G.
  - intros [J G]. apply filter_In. split; [exact J|].
    apply id_is_false in G. now rewrite G.
  - pose proof (filter_length (id_is task_id) table) as L.
    rewrite (filter_unique task_id table t N I E) in L. simpl in L.
    unfold table'. lia.
  - unfold main.delete_task.
    now rewrite (delete_task_found task_id table t F).
Qed.

Lemma delete_then_absent_witness :
  keyed three_rows /\ In (Some 2) (ids three_rows)
  /\ main.delete_task 2 three_rows
     = ({| status_code := 200;
           body := message_body "Task deleted successfully" |},
        [milk_row; with_id 3 milk_row])
  /\ main.read_task 2 [milk_row; with_id 3 milk_row]
     = (not_found, [milk_row; with_id 3 milk_row]).
Proof.
  pose proof three_rows_keyed as K.
  assert (H : In (Some 2) (ids three_rows)) by (right; left; reflexivity).
  split; [exact K|]. split; [exact H|].
  destruct (delete_then_absent three_rows 2 K H)
    as (_ & _ & _ & _ & D & R & _).
  split; [exact D | exact R].
Defined.

(** ** Responses and the store *)

Section Responses.

(** A request either leaves the table as it is or answers 200 or 201. *)
Lemma changed_means_success (r : request) (table : list Task) :
  snd (handle r table) = table
  \/ status_code (fst (handle r table)) = 200
  \/ status_code (fst (handle r table)) = 201.
Proof.
  destruct r as [now_v now b | now_v now k b | k]; simpl.
  - unfold main.create_task.
    destruct (TaskCreate_validate now_v b) as [task|e] eqn:V; [|now left].
    rewrite (create_task_eq now task table
               (Task_model_validate_ok now_v now b task V)).
    right. right. reflexivity.
  - unfold main.update_task.
    destruct (TaskUpdate_validate now_v b) as [u|e] eqn:V; [|now left].
    destruct (first (filter (id_is k) table)) as [t|] eqn:F.
    + destruct (dict_exclude_unset u) as [|i l] eqn:D.
      * apply dict_nil in D. subst u.
        rewrite (update_task_nothing now k table t F). now left.
      * rewrite (update_task_found now k u table t F)
          by (rewrite D; discriminate).
        destruct (null_violation (updated now u t)); [now left|].
        right. left. reflexivity.
    + rewrite (update_task_absent now k u table F).
      destruct (fits_int64 k); now left.
  - unfold main.delete_task.
    destruct (first (filter (id_is k) table)) as [t|] eqn:F.
    + rewrite (delete_task_found k table t F). right. left. reflexivity.
    + rewrite (delete_task_absent k table F).
      destruct (fits_int64 k); now left.
Qed.














End Responses.

(** X2.  A request that is answered with an error (a status of 400 or
    more) leaves every row of the store as it was. *)
Theorem error_response_leaves_store (r : request) (table : list Task) :
  400 <= status_code (fst (handle r table)) ->
  snd (handle r table) = table.
Proof.
  intros H.
  destruct (changed_means_success r table) as [E | [E | E]];
    [exact E | rewrite E in H; lia | rewrite E in H; lia].
Qed.

Lemma error_response_leaves_store_witness :
  400 <= status_code (fst (handle (PUT_task 20 21 1 null_title) [milk_row]))
  /\ snd (handle (PUT_task 20 21 1 null_title) [milk_row]) = [milk_row].
Proof.
  assert (H : 400 <= status_code
                       (fst (handle (PUT_task 20 21 1 null_title)
                                    [milk_row]))) by (simpl; lia).
  split; [exact H|].
  exact (error_response_leaves_store _ _ H).
Defined.



(** ** The order of the rows *)

Section Order.

Lemma ascending_app (table : list Task) (x : Task) :
  ascending table -> Forall (fun a => key_lt a x) table ->
  ascending (table ++ [x]).
Proof.
  unfold ascending. induction 1 as [|a l S IH F]; simpl; intros G.
  - constructor; constructor.
  - inversion G as [|? ? Ga Gl]; subst. constructor; [now apply IH|].
    apply Forall_app. split; [exact F|]. constructor; [exact Ga|constructor].
Qed.

(** The order only looks at the keys. *)
Lemma ascending_same_ids (table table' : list Task) :
  ids table' = ids table -> ascending table -> ascending table'.
Proof.
  unfold ascending. intros E S. revert table' E.
  induction S as [|a l S IH F]; intros [|b m] E; try discriminate E.
  - constructor.
  - simpl in E. injection E as Eb Em. constructor; [now apply IH|].
    clear IH S. revert m Em.
    induction F as [|x l Hx F IH]; intros [|y m] Em; try discriminate Em;
      constructor.
    + simpl in Em. injection Em as Ey _.
      unfold key_lt in *. now rewrite Eb, Ey.
    + simpl in Em. injection Em as _ Em. now apply IH.
Qed.

Lemma ascending_filter (p : Task -> bool) (table : list Task) :
  ascending table -> ascending (filter p table).
Proof.
  unfold ascending. induction 1 as [|a l S IH F]; simpl; [constructor|].
  destruct (p a); [|exact IH]. constructor; [exact IH|].
  apply Forall_forall. intros x I. apply filter_In in I as [I _].
  exact (proj1 (Forall_forall _ _) F x I).
Qed.

Lemma ascending_skipn (n : nat) (table : list Task) :
  ascending table -> ascending (skipn n table).
Proof.
  unfold ascending. revert table.
  induction n as [|n IH]; intros table S; [exact S|].
  destruct S as [|a l S F]; simpl; [constructor | now apply IH].
Qed.

Lemma ascending_firstn (n : nat) (table : list Task) :
  ascending table -> ascending (firstn n table).
Proof.
  unfold ascending. revert table.
  induction n as [|n IH]; intros table S; [constructor|].
  destruct S as [|a l S F]; simpl; [constructor|].
  constructor; [now apply IH|].
  apply Forall_forall. intros x I. apply in_firstn in I.
  exact (proj1 (Forall_forall _ _) F x I).
Qed.

Lemma ascending_result_set (st : statement) (table : list Task) :
  ascending table -> ascending (result_set st table).
Proof.
  intros S. unfold result_set.
  assert (A : ascending
                match offset_ st with
                | Some k => skipn (Z.to_nat k) (filter (matching st) table)
                | None => filter (matching st) table
                end).
  { destruct (offset_ st); [apply ascending_skipn|];
      now apply ascending_filter. }
  destruct (limit_ st) as [l|]; [|exact A].
  destruct (l <? 0); [exact A | now apply ascending_firstn].
Qed.

(** The key of an insert is above every key in use. *)
Lemma next_rowid_above (table : list Task) (t : Task) (i : Z) :
  In t table -> id t = Some i -> i < next_rowid table.
Proof.
  intros I E. destruct (max_rowid_bound table t i I E) as [m [M L]].
  unfold next_rowid. rewrite M. lia.
Qed.

Lemma next_rowid_positive (table : list Task) :
  Forall (fun t => exists k, id t = Some k /\ 1 <= k) table ->
  1 <= next_rowid table.
Proof.
  intros P. unfold next_rowid.
  destruct (max_rowid table) as [m|] eqn:M; [|lia].
  assert (G : exists t, In t table /\ id t = Some m).
  { clear P. revert m M. induction table as [|x r IH]; simpl; [discriminate|].
    intros m M. destruct (id x) as [i|] eqn:E.
    - destruct (max_rowid r) as [n|] eqn:R.
      + injection M as <-. destruct (Z.max_spec i n) as [[_ ->] | [_ ->]].
        * destruct (IH n eq_refl) as [t [I F]]. exists t. auto.
        * exists x. auto.
      + injection M as <-. exists x. auto.
    - destruct (IH m M) as [t [I F]]. exists t. auto. }
  destruct G as [t [I E]].
  destruct (proj1 (Forall_forall _ _) P t I) as [k [F L]].
  rewrite E in F. injection F as ->. lia.
Qed.

Lemma handle_ordered (r : request) (table : list Task) :
  ordered table -> ordered (snd (handle r table)).
Proof.
  intros [A P].
  destruct (handle_cases r table)
    as [-> | [(now_v & now & b & task & _ & V & ->)
           | [(now_v & now & k & b & u & t & _ & V & F & N & ->)
             | (k & _ & ->)]]].
  - now split.
  - split.
    + apply ascending_app; [exact A|].
      apply Forall_forall. intros a I.
      destruct (proj1 (Forall_forall _ _) P a I) as [i [E _]].
      unfold key_lt. rewrite E. simpl.
      now apply (next_rowid_above table a).
    + apply Forall_app. split; [exact P|].
      constructor; [|constructor]. exists (next_rowid table).
      split; [reflexivity | now apply next_rowid_positive].
  - apply first_filter_some in F as [I E]. apply id_is_true in E.
    split.
    + apply (ascending_same_ids table); [|exact A].
      now apply ids_replace_row.
    + unfold replace_row. apply Forall_map.
      apply (Forall_impl _ (P := fun x => exists i, id x = Some i /\ 1 <= i));
        [|exact P].
      intros x Hx. destruct (id_is k x); [|exact Hx].
      simpl. exact (proj1 (Forall_forall _ _) P t I).
  - split; [now apply ascending_filter|].
    apply Forall_forall. intros x I. apply filter_In in I as [I _].
    exact (proj1 (Forall_forall _ _) P x I).
Qed.

Lemma run_ordered (rs : list request) (table : list Task) :
  ordered table -> ordered (run rs table).
Proof.
  revert table. induction rs as [|r rs IH]; intros table H; simpl.
  - exact H.
  - apply IH. now apply handle_ordered.
Qed.

End Order.

(** X4.  In every store that the requests can reach the rows are in the
    strict order of their ids, every id is 1 or more, and every page that
    [get_tasks] returns, whatever its filters, skip and limit, is in that
    order too. *)
Theorem reachable_rows_in_id_order (table : list Task) :
  reachable table ->
  ascending table
  /\ Forall (fun t => exists k, id t = Some k /\ 1 <= k) table
  /\ (forall skip limit_n st pr tasks total,
        fst (crud.get_tasks skip limit_n st pr (get_session table))
        = Return (tasks, total) ->
        ascending tasks).
Proof.
  intros [rs <-].
  assert (O : ordered (run rs [])).
  { apply run_ordered. split; constructor. }
  destruct O as [A P]. split; [exact A|]. split; [exact P|].
  intros skip limit_n st pr tasks total E.
  apply get_tasks_returned in E as (_ & _ & -> & _).
  now apply ascending_result_set.
Qed.

Lemma reachable_rows_in_id_order_witness :
  reachable (run [POST_tasks 10 11 buy_milk; POST_tasks 12 13 buy_milk;
                  DELETE_task 1; POST_tasks 14 15 buy_milk] [])
  /\ ascending (run [POST_tasks 10 11 buy_milk; POST_tasks 12 13 buy_milk;
                     DELETE_task 1; POST_tasks 14 15 buy_milk] []).
Proof.
  assert (R : reachable
                (run [POST_tasks 10 11 buy_milk; POST_tasks 12 13 buy_milk;
                      DELETE_task 1; POST_tasks 14 15 buy_milk] []))
    by (eexists; reflexivity).
  split; [exact R|]. exact (proj1 (reachable_rows_in_id_order _ R)).
Defined.

(** ** What an update keeps *)

Section Kept.

Lemma same_key_same_row (table : list Task) (a b : Task) :
  NoDup (ids table) -> In a table -> In b table -> id a = id b -> a = b.
Proof.
  induction table as [|x r IH]; simpl; [contradiction|].
  intros N Ia Ib E. inversion N as [|? ? Hx Hr]; subst.
  destruct Ia as [-> | Ia], Ib as [-> | Ib].
  - reflexivity.
  - elim Hx. rewrite E. now apply in_map.
  - elim Hx. rewrite <- E. now apply in_map.
  - now apply IH.
Qed.

Lemma replace_row_map {B : Type} (f : Task -> B) (k : Z) (o t : Task)
    (table : list Task) :
  NoDup (ids table) -> In t table -> id t = Some k -> f o = f t ->
  map f (replace_row k o table) = map f table.
Proof.
  intros N I E F. unfold replace_row. rewrite map_map.
  apply map_ext_in. intros r Ir. destruct (id_is k r) eqn:G; [|reflexivity].
  apply id_is_true in G.
  rewrite (same_key_same_row table r t N Ir I); [exact F | congruence].
Qed.

Lemma replace_row_others (k : Z) (o : Task) (table : list Task) :
  id o = Some k ->
  filter (fun r => negb (id_is k r)) (replace_row k o table)
  = filter (fun r => negb (id_is k r)) table.
Proof.
  intros E. apply id_is_true in E.
  induction table as [|x r IH]; simpl; [reflexivity|].
  destruct (id_is k x) eqn:G; simpl.
  - now rewrite E.
  - now rewrite G, IH.
Qed.

End Kept.

(** X5.  Whatever its body and its outcome, an update request on a store
    with distinct ids leaves the ids and the creation times of all rows, in
    their order, as they were, and every row of another id unchanged. *)
Theorem update_keeps_ids_and_created_at (now_v now : datetime) (task_id : Z)
    (b : Body) (table : list Task) :
  NoDup (ids table) ->
  let table' := snd (main.update_task now_v now task_id b table) in
  map id table' = map id table
  /\ map created_at table' = map created_at table
  /\ filter (fun r => negb (id_is task_id r)) table'
     = filter (fun r => negb (id_is task_id r)) table.
Proof.
  intros N table'.
  destruct (handle_cases (PUT_task now_v now task_id b) table)
    as [E | [(? & ? & ? & ? & E & _)
           | [(nv & n & k & b' & u & t & R & V & F & NV & E)
             | (? & E & _)]]]; try discriminate E.
  - unfold table'. simpl in E. rewrite E. auto.
  - injection R as <- <- <- <-. unfold table'. simpl in E. rewrite E.
    destruct (first_filter_some _ _ _ F) as [I G]. apply id_is_true in G.
    split; [|split].
    + now apply (replace_row_map id task_id _ t).
    + now apply (replace_row_map created_at task_id _ t).
    + now apply replace_row_others.
Qed.

Lemma update_keeps_ids_and_created_at_witness :
  NoDup (ids three_rows)
  /\ map id (snd (main.update_task 20 21 2
                    (body_of Unset (Given (Some completed)) Unset Unset)
                    three_rows))
     = map id three_rows.
Proof.
  assert (N : NoDup (ids three_rows)).
  { repeat constructor; simpl; intuition discriminate. }
  split; [exact N|].
  exact (proj1 (update_keeps_ids_and_created_at 20 21 2 _ three_rows N)).
Defined.

(** ** Pages *)

Section Pages.

Lemma firstn_add {A : Type} (n m : nat) (l : list A) :
  firstn n l ++ firstn m (skipn n l) = firstn (n + m) l.
Proof.
  revert l. induction n as [|n IH]; intros [|a l]; simpl;
    try reflexivity.
  - now rewrite firstn_nil.
  - now rewrite IH.
Qed.

(** The page of [get_tasks] for a limit that is not negative. *)
Lemma get_tasks_page (skip limit_n : Z) (st : option TaskStatus)
    (pr : option TaskPriority) (table : list Task) :
  0 <= limit_n -> fits_int64 skip = true -> fits_int64 limit_n = true ->
  fst (crud.get_tasks skip limit_n st pr (get_session table))
  = Return (page_of skip limit_n (filter (matches st pr) table),
            Z.of_nat (List.length
              (filter (fun t => py.bool_obj (id t))
                      (filter (matches st pr) table)))).
Proof.
  intros L Bs Bl.
  rewrite (get_tasks_eq skip limit_n st pr table Bs Bl).
  rewrite result_set_clauses, result_set_page.
  cbv zeta. destruct (Z.ltb_spec limit_n 0); [lia | reflexivity].
Qed.

Lemma page_of_add (skip l1 l2 : Z) (m : list Task) :
  0 <= skip -> 0 <= l1 -> 0 <= l2 ->
  page_of skip l1 m ++ page_of (skip + l1) l2 m = page_of skip (l1 + l2) m.
Proof.
  intros Hs H1 H2. unfold page_of.
  rewrite !Z2Nat.inj_add by lia.
  replace (skipn (Z.to_nat skip + Z.to_nat l1) m)
    with (skipn (Z.to_nat l1) (skipn (Z.to_nat skip) m))
    by (rewrite skipn_skipn; f_equal; lia).
  apply firstn_add.
Qed.

End Pages.

(** X6.  Consecutive pages fit together: for the same filters, and for
    skips and limits that are not negative and within the signed 64-bit
    integers, the page at skip with limit l1 followed by the page at
    skip + l1 with limit l2 is the page at skip with limit l1 + l2, and the
    three calls return the same total. *)
Theorem pages_concatenate (table : list Task) (st : option TaskStatus)
    (pr : option TaskPriority) (skip l1 l2 : Z) :
  0 <= skip -> 0 <= l1 -> 0 <= l2 ->
  fits_int64 (skip + l1) = true -> fits_int64 (l1 + l2) = true ->
  exists p1 p2 p12 total,
    fst (crud.get_tasks skip l1 st pr (get_session table))
    = Return (p1, total)
    /\ fst (crud.get_tasks (skip + l1) l2 st pr (get_session table))
       = Return (p2, total)
    /\ fst (crud.get_tasks skip (l1 + l2) st pr (get_session table))
       = Return (p12, total)
    /\ p1 ++ p2 = p12.
Proof.
  intros Hs H1 H2 B1 B2.
  assert (Bs : fits_int64 skip = true)
    by (apply (fits_int64_below (skip + l1)); [lia | exact B1]).
  assert (Bl1 : fits_int64 l1 = true)
    by (apply (fits_int64_below (skip + l1)); [lia | exact B1]).
  assert (Bl2 : fits_int64 l2 = true)
    by (apply (fits_int64_below (l1 + l2)); [lia | exact B2]).
  do 4 eexists.
  rewrite (get_tasks_page skip l1 st pr table H1 Bs Bl1).
  rewrite (get_tasks_page (skip + l1) l2 st pr table H2 B1 Bl2).
  rewrite (get_tasks_page skip (l1 + l2) st pr table ltac:(lia) Bs B2).
  repeat split. now apply page_of_add.
Qed.

Lemma pages_concatenate_witness :
  fits_int64 (0 + 1) = true /\ fits_int64 (1 + 2) = true
  /\ exists p1 p2 p12 total,
    fst (crud.get_tasks 0 1 None None (get_session three_rows))
    = Return (p1, total)
    /\ fst (crud.get_tasks (0 + 1) 2 None None (get_session three_rows))
       = Return (p2, total)
    /\ fst (crud.get_tasks 0 (1 + 2) None None (get_session three_rows))
       = Return (p12, total)
    /\ p1 ++ p2 = p12.
Proof.
  split; [reflexivity|]. split; [reflexivity|].
  apply (pages_concatenate three_rows None None 0 1 2);
    try lia; reflexivity.
Defined.

(** X7.  The ends of the listing, for a skip and a limit that are not
    negative and within the signed 64-bit integers.  With limit 0 the page
    is empty; with a skip of at least the number of matching rows the page
    is empty; with skip 0 and a limit of at least that number the page is
    all the matching rows, in the order of the store.  The total is the
    same in the three cases. *)
Theorem page_ends (table : list Task) (st : option TaskStatus)
    (pr : option TaskPriority) (skip limit_n : Z) :
  0 <= skip -> 0 <= limit_n ->
  fits_int64 skip = true -> fits_int64 limit_n = true ->
  let m := filter (matches st pr) table in
  exists total,
    fst (crud.get_tasks skip 0 st pr (get_session table))
    = Return ([], total)
    /\ (Z.of_nat (List.length m) <= skip ->
        fst (crud.get_tasks skip limit_n st pr (get_session table))
        = Return ([], total))
    /\ (Z.of_nat (List.length m) <= limit_n ->
        fst (crud.get_tasks 0 limit_n st pr (get_session table))
        = Return (m, total)).
Proof.
  intros Hs Hl Bs Bl m. eexists.
  rewrite (get_tasks_page skip 0 st pr table ltac:(lia) Bs eq_refl).
  rewrite (get_tasks_page skip limit_n st pr table Hl Bs Bl).
  rewrite (get_tasks_page 0 limit_n st pr table Hl eq_refl Bl).
  fold m. unfold page_of.
  split; [reflexivity|]. split; intros H.
  - rewrite skipn_all2 by lia. now rewrite firstn_nil.
  - simpl skipn. rewrite firstn_all2 by lia. reflexivity.
Qed.

Lemma page_ends_witness :
  exists total,
    fst (crud.get_tasks 3 0 None None (get_session three_rows))
    = Return ([], total)
    /\ fst (crud.get_tasks 3 3 None None (get_session three_rows))
       = Return ([], total)
    /\ fst (crud.get_tasks 0 3 None None (get_session three_rows))
       = Return (three_rows, total).
Proof.
  destruct (page_ends three_rows None None 3 3 ltac:(lia) ltac:(lia)
              eq_refl eq_refl)
    as (total & Z & S & A).
  exists total. split; [exact Z|].
  split; [apply S | apply A]; simpl; lia.
Defined.

(** ** Filters *)

Section Filters.

Lemma status_is_true (v : TaskStatus) (t : Task) :
  status_is v t = true <-> status t = Some v.
Proof.
  unfold status_is. destruct (status t) as [x|]; [|split; discriminate].
  destruct x, v; simpl; split; congruence.
Qed.

Lemma priority_is_true (v : TaskPriority) (t : Task) :
  priority_is v t = true <-> priority t = Some v.
Proof.
  unfold priority_is. destruct (priority t) as [x|]; [|split; discriminate].
  destruct x, v; simpl; split; congruence.
Qed.

(** Every row of a page is a row of the table that matches the filters. *)
Lemma in_page (skip limit_n : Z) (st : option TaskStatus)
    (pr : option TaskPriority) (table : list Task) (t : Task) :
  In t (result_set (limit (offset (clauses st pr) skip) limit_n) table) ->
  In t table /\ matches st pr t = true.
Proof.
  rewrite result_set_page. cbv zeta. intros I.
  assert (J : In t (filter (matches st pr) table)).
  { destruct (limit_n <? 0); [|apply in_firstn in I];
      now apply in_skipn in I. }
  now apply filter_In in J.
Qed.

Lemma status_counts (table : list Task) :
  Forall not_null table ->
  (List.length (filter (matches (Some pending) None) table)
   + List.length (filter (matches (Some in_progress) None) table)
   + List.length (filter (matches (Some completed) None) table)
   + List.length (filter (matches (Some cancelled) None) table)
   = List.length table)%nat.
Proof.
  induction 1 as [|t r Ht Hr IH]; [reflexivity|].
  unfold not_null, null_violation in Ht.
  destruct (title t); [|discriminate].
  destruct (status t) as [x|] eqn:E; [|discriminate].
  assert (V : forall v, matches (Some v) None t = TaskStatus_eqb x v).
  { intros v. unfold matches, status_is. rewrite E. apply andb_true_r. }
  cbn [filter]. rewrite !V.
  destruct x; cbn [TaskStatus_eqb List.length]; lia.
Qed.

Lemma priority_counts (table : list Task) :
  Forall not_null table ->
  (List.length (filter (matches None (Some low)) table)
   + List.length (filter (matches None (Some medium)) table)
   + List.length (filter (matches None (Some high)) table)
   + List.length (filter (matches None (Some urgent)) table)
   = List.length table)%nat.
Proof.
  induction 1 as [|t r Ht Hr IH]; [reflexivity|].
  unfold not_null, null_violation in Ht.
  destruct (title t); [|discriminate].
  destruct (status t); [|discriminate].
  destruct (priority t) as [x|] eqn:E; [|discriminate].
  assert (V : forall v, matches None (Some v) t = TaskPriority_eqb x v).
  { intros v. unfold matches, priority_is. now rewrite E. }
  cbn [filter]. rewrite !V.
  destruct x; cbn [TaskPriority_eqb List.length]; lia.
Qed.

Lemma filter_all (table : list Task) :
  filter (matches None None) table = table.
Proof.
  induction table as [|t r IH]; simpl; [reflexivity | now rewrite IH].
Qed.

(** The total of [get_tasks] on a table whose rows all have a key. *)
Lemma get_tasks_total (skip limit_n : Z) (st : option TaskStatus)
    (pr : option TaskPriority) (table : list Task) :
  fits_int64 skip = true -> fits_int64 limit_n = true ->
  Forall (fun t => id t <> None) table ->
  exists tasks,
    fst (crud.get_tasks skip limit_n st pr (get_session table))
    = Return (tasks, Z.of_nat (List.length (filter (matches st pr) table))).
Proof.
  intros Bs Bl K. eexists.
  rewrite (get_tasks_eq skip limit_n st pr table Bs Bl), result_set_clauses.
  rewrite filter_keyed; [reflexivity|].
  apply Forall_forall. intros t I. apply filter_In in I as [I _].
  exact (proj1 (Forall_forall _ _) K t I).
Qed.

End Filters.

(** X8.  Every list that [get_tasks_by_status] returns holds only rows of
    the table whose status is the one asked for, and every list that
    [get_tasks_by_priority] returns only rows whose priority is the one
    asked for; and the two return for every skip and limit within the
    signed 64-bit integers. *)
Theorem filtered_lists_hold_the_value (table : list Task) (skip limit_n : Z)
    (st : TaskStatus) (pr : TaskPriority) :
  (forall tasks total,
      fst (crud.get_tasks_by_status st skip limit_n (get_session table))
      = Return (tasks, total) ->
      Forall (fun t => In t table /\ status t = Some st) tasks)
  /\ (forall tasks total,
        fst (crud.get_tasks_by_priority pr skip limit_n (get_session table))
        = Return (tasks, total) ->
        Forall (fun t => In t table /\ priority t = Some pr) tasks)
  /\ (fits_int64 skip = true -> fits_int64 limit_n = true ->
      (exists tasks total,
          fst (crud.get_tasks_by_status st skip limit_n (get_session table))
          = Return (tasks, total))
      /\ (exists tasks total,
            fst (crud.get_tasks_by_priority pr skip limit_n
                   (get_session table))
            = Return (tasks, total))).
Proof.
  unfold crud.get_tasks_by_status, crud.get_tasks_by_priority.
  split; [|split].
  - intros tasks total E. apply get_tasks_returned in E as (_ & _ & -> & _).
    apply Forall_forall. intros t I. apply in_page in I as [I M].
    split; [exact I|]. unfold matches in M. rewrite andb_true_r in M.
    now apply status_is_true.
  - intros tasks total E. apply get_tasks_returned in E as (_ & _ & -> & _).
    apply Forall_forall. intros t I. apply in_page in I as [I M].
    split; [exact I|]. unfold matches in M. now apply priority_is_true.
  - intros Bs Bl. rewrite !get_tasks_eq by assumption.
    split; do 2 eexists; reflexivity.
Qed.

Lemma filtered_lists_hold_the_value_witness :
  fst (crud.get_tasks_by_status pending 0 2 (get_session three_rows))
  = Return ([milk_row; with_id 2 milk_row], 3)
  /\ Forall (fun t => In t three_rows /\ status t = Some pending)
       [milk_row; with_id 2 milk_row].
Proof.
  assert (E : fst (crud.get_tasks_by_status pending 0 2
                     (get_session three_rows))
              = Return ([milk_row; with_id 2 milk_row], 3)) by reflexivity.
  split; [exact E|].
  exact (proj1 (filtered_lists_hold_the_value three_rows 0 2 pending low)
           _ _ E).
Defined.

(** X9.  On a store that meets its schema, and for a skip and a limit
    within the signed 64-bit integers, the totals of the four status lists
    add up to the total of the unfiltered list, and so do the totals of the
    four priority lists. *)
Theorem filtered_totals_add_up (table : list Task) (skip limit_n : Z) :
  schema_ok table ->
  fits_int64 skip = true -> fits_int64 limit_n = true ->
  let total := fun (m : M (list Task * Z)) =>
    match fst (m (get_session table)) with
    | Return (_, n) => n
    | Raise _ => -1
    end in
  total (crud.get_tasks skip limit_n None None)
  = Z.of_nat (List.length table)
  /\ total (crud.get_tasks_by_status pending skip limit_n)
     + total (crud.get_tasks_by_status in_progress skip limit_n)
     + total (crud.get_tasks_by_status completed skip limit_n)
     + total (crud.get_tasks_by_status cancelled skip limit_n)
     = Z.of_nat (List.length table)
  /\ total (crud.get_tasks_by_priority low skip limit_n)
     + total (crud.get_tasks_by_priority medium skip limit_n)
     + total (crud.get_tasks_by_priority high skip limit_n)
     + total (crud.get_tasks_by_priority urgent skip limit_n)
     = Z.of_nat (List.length table).
Proof.
  intros [[K _] NN] Bs Bl total.
  assert (T : forall st pr,
    total (crud.get_tasks skip limit_n st pr)
    = Z.of_nat (List.length (filter (matches st pr) table))).
  { intros st pr. unfold total.
    destruct (get_tasks_total skip limit_n st pr table Bs Bl K)
      as [tasks ->].
    reflexivity. }
  unfold crud.get_tasks_by_status, crud.get_tasks_by_priority.
  rewrite !T. rewrite filter_all.
  pose proof (status_counts table NN). pose proof (priority_counts table NN).
  split; [reflexivity|]. split; lia.
Qed.

Lemma filtered_totals_add_up_witness :
  schema_ok three_rows
  /\ match fst (crud.get_tasks 0 1 None None (get_session three_rows)) with
     | Return (_, n) => n
     | Raise _ => -1
     end = Z.of_nat (List.length three_rows).
Proof.
  assert (S : schema_ok three_rows).
  { split; [split|]; repeat constructor; simpl; try discriminate;
      intuition discriminate. }
  split; [exact S|].
  exact (proj1 (filtered_totals_add_up three_rows 0 1 S eq_refl eq_refl)).
Defined.

(** ** The listing handlers *)

Section Handlers.

Lemma Query_in_range (name : string) (default lo hi : Z) (v : option Z) :
  lo <= param default v <= hi ->
  Query name default lo (Some hi) v = Ok (param default v)
  /\ Query name default lo None v = Ok (param default v).
Proof.
  intros [L H]. unfold Query. fold (param default v).
  destruct (Z.ltb_spec (param default v) lo); [lia|].
  destruct (Z.ltb_spec hi (param default v)); [lia|]. now split.
Qed.

Lemma Query_below (name : string) (default lo : Z) (hi v : option Z) :
  param default v < lo ->
  exists e, Query name default lo hi v = Invalid e.
Proof.
  intros L. unfold Query. fold (param default v).
  destruct (Z.ltb_spec (param default v) lo); [|lia].
  eexists. reflexivity.
Qed.

Lemma Query_above (name : string) (default lo hi : Z) (v : option Z) :
  hi < param default v ->
  exists e, Query name default lo (Some hi) v = Invalid e.
Proof.
  intros L. unfold Query. fold (param default v).
  destruct (Z.ltb_spec (param default v) lo); [eexists; reflexivity|].
  destruct (Z.ltb_spec hi (param default v)); [|lia].
  eexists. reflexivity.
Qed.

Lemma Query_unbounded (name : string) (default lo : Z) (v : option Z) :
  lo <= param default v ->
  Query name default lo None v = Ok (param default v).
Proof.
  intros L. unfold Query. fold (param default v).
  destruct (Z.ltb_spec (param default v) lo); [lia | reflexivity].
Qed.

Lemma page_refused (skip limit_n : option Z)
    (list_ : Z -> Z -> M (list Task * Z)) (table : list Task) :
  param 0 skip < 0 \/ param 100 limit_n < 1 \/ 1000 < param 100 limit_n ->
  exists e, main.page skip limit_n list_ table = (unprocessable e, table).
Proof.
  intros H. unfold main.page.
  destruct H as [H | [H | H]].
  - destruct (Query_below "skip" 0 0 None skip H) as [e ->].
    eexists. reflexivity.
  - destruct (Query_below "limit" 100 1 (Some 1000) limit_n H) as [e ->].
    destruct (Query "skip" 0 0 None skip); eexists; reflexivity.
  - destruct (Query_above "limit" 100 1 1000 limit_n H) as [e ->].
    destruct (Query "skip" 0 0 None skip); eexists; reflexivity.
Qed.

Lemma page_served (skip limit_n : option Z) (st : option TaskStatus)
    (pr : option TaskPriority) (table : list Task) :
  0 <= param 0 skip -> fits_int64 (param 0 skip) = true ->
  1 <= param 100 limit_n <= 1000 ->
  exists total,
    main.page skip limit_n (fun s l => crud.get_tasks s l st pr) table
    = ({| status_code := 200;
          body := page_body
                    (page_of (param 0 skip) (param 100 limit_n)
                             (filter (matches st pr) table))
                    total (param 0 skip) (param 100 limit_n) |}, table).
Proof.
  intros Hs Bs Hl. unfold main.page.
  assert (Bl : fits_int64 (param 100 limit_n) = true)
    by (apply fits_int64_iff; lia).
  rewrite (Query_unbounded "skip" 0 0 skip Hs).
  rewrite (proj1 (Query_in_range "limit" 100 1 1000 limit_n Hl)).
  rewrite (get_tasks_eq _ _ st pr table Bs Bl), result_set_page. cbv zeta.
  destruct (Z.ltb_spec (param 100 limit_n) 0); [lia|].
  eexists. reflexivity.
Qed.

(** A skip that the driver cannot bind. *)
Lemma page_overflow (skip limit_n : option Z) (st : option TaskStatus)
    (pr : option TaskPriority) (table : list Task) :
  0 <= param 0 skip -> fits_int64 (param 0 skip) = false ->
  1 <= param 100 limit_n <= 1000 ->
  main.page skip limit_n (fun s l => crud.get_tasks s l st pr) table
  = (internal_error, table).
Proof.
  intros Hs Bs Hl. unfold main.page.
  rewrite (Query_unbounded "skip" 0 0 skip Hs).
  rewrite (proj1 (Query_in_range "limit" 100 1 1000 limit_n Hl)).
  now rewrite get_tasks_run, Bs.
Qed.

Lemma page_of_length (skip limit_n : Z) (m : list Task) :
  0 <= limit_n -> Z.of_nat (List.length (page_of skip limit_n m)) <= limit_n.
Proof. intros H. unfold page_of. rewrite length_firstn. lia. Qed.

End Handlers.

(** X10.  The three listing handlers take skip from 0 up, default 0, and
    limit from 1 to 1000, default 100.  Outside these bounds they answer 422
    and do not read the store; inside them, and with a skip within the
    signed 64-bit integers, they answer 200 with the page of the rows that
    match, of at most limit and so at most 1000 rows, and with the skip and
    limit they used.  A skip above the signed 64-bit integers passes the
    bounds, which have no upper one for it, and the handlers answer 500. *)
Theorem listing_handlers_bound_the_page (skip limit_n : option Z)
    (st : TaskStatus) (pr : TaskPriority) (table : list Task) :
  let s := param 0 skip in
  let l := param 100 limit_n in
  (s < 0 \/ l < 1 \/ 1000 < l ->
     (exists e, main.read_tasks skip limit_n table = (unprocessable e, table))
     /\ (exists e, main.read_tasks_by_status st skip limit_n table
                   = (unprocessable e, table))
     /\ (exists e, main.read_tasks_by_priority pr skip limit_n table
                   = (unprocessable e, table)))
  /\ (0 <= s -> fits_int64 s = false -> 1 <= l <= 1000 ->
      main.read_tasks skip limit_n table = (internal_error, table)
      /\ main.read_tasks_by_status st skip limit_n table
         = (internal_error, table)
      /\ main.read_tasks_by_priority pr skip limit_n table
         = (internal_error, table))
  /\ (0 <= s -> fits_int64 s = true -> 1 <= l <= 1000 ->
      (exists total,
          main.read_tasks skip limit_n table
          = ({| status_code := 200;
                body := page_body (page_of s l table) total s l |}, table))
      /\ (exists total,
            main.read_tasks_by_status st skip limit_n table
            = ({| status_code := 200;
                  body := page_body
                            (page_of s l
                               (filter (matches (Some st) None) table))
                            total s l |}, table))
      /\ (exists total,
            main.read_tasks_by_priority pr skip limit_n table
            = ({| status_code := 200;
                  body := page_body
                            (page_of s l
                               (filter (matches None (Some pr)) table))
                            total s l |}, table))
      /\ (forall m, Z.of_nat (List.length (page_of s l m)) <= l)
      /\ (forall m, Z.of_nat (List.length (page_of s l m)) <= 1000)).
Proof.
  intros s l. split; [|split].
  - intros H. repeat split; now apply page_refused.
  - intros Hs Bs Hl. repeat split; now apply page_overflow.
  - intros Hs Bs Hl. split; [|split; [|split; [|split]]].
    + destruct (page_served skip limit_n None None table Hs Bs Hl)
        as [t E].
      rewrite filter_all in E. now exists t.
    + apply (page_served skip limit_n (Some st) None table Hs Bs Hl).
    + apply (page_served skip limit_n None (Some pr) table Hs Bs Hl).
    + intros m. apply page_of_length. lia.
    + intros m. pose proof (page_of_length s l m). lia.
Qed.

Lemma listing_handlers_bound_the_page_witness :
  (exists e, main.read_tasks (Some 0) (Some 1001) three_rows
             = (unprocessable e, three_rows))
  /\ main.read_tasks (Some 9223372036854775808) None three_rows
     = (internal_error, three_rows)
  /\ (exists total,
        main.read_tasks None (Some 2) three_rows
        = ({| status_code := 200;
              body := page_body (page_of 0 2 three_rows) total 0 2 |},
           three_rows)).
Proof.
  split; [|split].
  - apply (proj1 (listing_handlers_bound_the_page (Some 0) (Some 1001)
                    pending low three_rows)).
    right. right. simpl. lia.
  - apply (proj1 (proj2 (listing_handlers_bound_the_page
                           (Some 9223372036854775808) None
                           pending low three_rows)));
      simpl; try lia; reflexivity.
  - apply (proj2 (proj2 (listing_handlers_bound_the_page None (Some 2)
                           pending low three_rows)));
      simpl; try lia; reflexivity.
Defined.

(** ** Update, again *)

Section UpdateAgain.

Lemma updated_not_null (now : datetime) (u : TaskUpdate) (t : Task) :
  not_null t -> ~ nulls_a_column u ->
  null_violation (updated now u t) = None.
Proof.
  unfold not_null, nulls_a_column, null_violation. simpl.
  destruct (u_title u) as [|[x|]], (u_status u) as [|[y|]],
    (u_priority u) as [|[z|]]; simpl; intros N H; try tauto;
    destruct (title t), (status t), (priority t); congruence.
Qed.

(** A second update writes over the first one field by field. *)
Lemma updated_updated (now now2 : datetime) (u : TaskUpdate) (t : Task) :
  updated now2 u (updated now u t) = updated now2 u t.
Proof.
  unfold updated. simpl.
  destruct (u_title u), (u_description u), (u_status u), (u_priority u),
    (u_due_date u), (u_assigned_to u); reflexivity.
Qed.

Lemma replace_row_twice (k : Z) (o1 o2 : Task) (table : list Task) :
  id o1 = Some k ->
  replace_row k o2 (replace_row k o1 table) = replace_row k o2 table.
Proof.
  intros E. apply id_is_true in E. unfold replace_row. rewrite map_map.
  apply map_ext. intros r. destruct (id_is k r) eqn:F.
  - now rewrite E.
  - now rewrite F.
Qed.

Lemma in_replace_row (k : Z) (o t : Task) (table : list Task) :
  In t table -> id t = Some k -> In o (replace_row k o table).
Proof.
  intros I E. unfold replace_row. apply in_map_iff. exists t.
  apply id_is_true in E. rewrite E. auto.
Qed.

(** A successful update, as the handler sees it. *)
Lemma update_served (now_v now : datetime) (k : Z) (b : Body)
    (u : TaskUpdate) (table : list Task) (t : Task) :
  NoDup (ids table) -> In t table -> id t = Some k -> not_null t ->
  TaskUpdate_validate now_v b = Ok u ->
  u <> TaskUpdate_empty -> ~ nulls_a_column u ->
  main.update_task now_v now k b table
  = ({| status_code := 200; body := task_body (updated now u t) |},
     replace_row k (updated now u t) table).
Proof.
  intros N I E NN V D H. unfold main.update_task. rewrite V.
  rewrite (update_task_found now k u table t).
  - now rewrite (updated_not_null now u t NN H).
  - now apply first_unique.
  - intros F. apply D. now apply dict_nil.
Qed.

End UpdateAgain.

(** X11.  Round trip of an update.  After an update of an existing task
    that succeeds, reading the task by its id returns the task that the
    update returned, through [get_task] and through the read handler. *)
Theorem update_then_get (table : list Task) (task_id : Z) (t : Task)
    (now_v now : datetime) (b : Body) (u : TaskUpdate) :
  NoDup (ids table) -> In t table -> id t = Some task_id -> not_null t ->
  TaskUpdate_validate now_v b = Ok u ->
  u <> TaskUpdate_empty -> ~ nulls_a_column u ->
  exists t' table',
    main.update_task now_v now task_id b table
    = ({| status_code := 200; body := task_body t' |}, table')
    /\ fst (crud.get_task task_id (get_session table')) = Return (Some t')
    /\ main.read_task task_id table'
       = ({| status_code := 200; body := task_body t' |}, table').
Proof.
  intros N I E NN V D H.
  exists (updated now u t), (replace_row task_id (updated now u t) table).
  split; [now apply (update_served now_v now task_id b u table t)|].
  assert (G : first (filter (id_is task_id)
                       (replace_row task_id (updated now u t) table))
              = Some (updated now u t))
    by now apply (first_replace_row task_id _ table t).
  split.
  - now rewrite get_task_eq, G.
  - unfold main.read_task. now rewrite get_task_eq, G.
Qed.

Lemma update_then_get_witness :
  exists t' table',
    main.update_task 20 21 1
      (body_of Unset (Given (Some completed)) Unset Unset) [milk_row]
    = ({| status_code := 200; body := task_body t' |}, table')
    /\ fst (crud.get_task 1 (get_session table')) = Return (Some t')
    /\ main.read_task 1 table'
       = ({| status_code := 200; body := task_body t' |}, table').
Proof.
  apply (update_then_get [milk_row] 1 milk_row 20 21 _ set_completed).
  - repeat constructor. simpl. tauto.
  - left. reflexivity.
  - reflexivity.
  - reflexivity.
  - reflexivity.
  - discriminate.
  - unfold nulls_a_column. simpl. intuition discriminate.
Defined.

(** X12.  Two updates in a row.  After a successful update of a task, a
    second successful update of it leaves the task of the second applied to
    the task of the first; every other row is as before the first.  When
    the two supply the same fields and values, the outcome is that of the
    second alone: only [updated_at] moves. *)
Theorem updates_compose (table : list Task) (task_id : Z) (t : Task)
    (now1 now2 : datetime) (u1 u2 : TaskUpdate) :
  NoDup (ids table) -> In t table -> id t = Some task_id -> not_null t ->
  u1 <> TaskUpdate_empty -> ~ nulls_a_column u1 ->
  u2 <> TaskUpdate_empty -> ~ nulls_a_column u2 ->
  exists s1 s2,
    crud.update_task now1 task_id u1 (get_session table)
    = (Return (Some (updated now1 u1 t)), s1)
    /\ crud.update_task now2 task_id u2 (get_session (rows s1))
       = (Return (Some (updated now2 u2 (updated now1 u1 t))), s2)
    /\ rows s2
       = replace_row task_id (updated now2 u2 (updated now1 u1 t)) table
    /\ (u1 = u2 ->
        updated now2 u2 (updated now1 u1 t) = updated now2 u2 t).
Proof.
  intros N I E NN D1 H1 D2 H2.
  assert (F1 : first (filter (id_is task_id) table) = Some t)
    by now apply first_unique.
  assert (F2 : first (filter (id_is task_id)
                        (replace_row task_id (updated now1 u1 t) table))
               = Some (updated now1 u1 t))
    by now apply (first_replace_row task_id _ table t).
  assert (N1 : null_violation (updated now1 u1 t) = None)
    by now apply updated_not_null.
  assert (N2 : null_violation (updated now2 u2 (updated now1 u1 t)) = None)
    by now apply updated_not_null.
  do 2 eexists. split; [|split; [|split]].
  - rewrite (update_task_found now1 task_id u1 table t F1)
      by (intros F; apply D1; now apply dict_nil).
    rewrite N1. reflexivity.
  - cbn [rows].
    rewrite (update_task_found now2 task_id u2 _ _ F2)
      by (intros F; apply D2; now apply dict_nil).
    rewrite N2. reflexivity.
  - cbn [rows]. now apply replace_row_twice.
  - intros ->. apply updated_updated.
Qed.

Lemma updates_compose_witness :
  exists s1 s2,
    crud.update_task 21 1 set_completed (get_session [milk_row])
    = (Return (Some (updated 21 set_completed milk_row)), s1)
    /\ crud.update_task 25 1 set_completed (get_session (rows s1))
       = (Return (Some (updated 25 set_completed
                          (updated 21 set_completed milk_row))), s2).
Proof.
  destruct (updates_compose [milk_row] 1 milk_row 21 25 set_completed
              set_completed) as (s1 & s2 & A & B & _).
  - repeat constructor. simpl. tauto.
  - left. reflexivity.
  - reflexivity.
  - reflexivity.
  - discriminate.
  - unfold nulls_a_column. simpl. intuition discriminate.
  - discriminate.
  - unfold nulls_a_column. simpl. intuition discriminate.
  - exists s1, s2. split; [exact A | exact B].
Defined.

(** ** Refused bodies *)

Section Refused.

Lemma str_field_over (f : string) (n : nat) (s : pystr) :
  (n < List.length s)%nat -> is_ok (str_field f n s) = false.
Proof.
  intros L. unfold str_field, max_length. apply Nat.ltb_lt in L.
  rewrite L. now destruct (py.has_surrogate s).
Qed.

Lemma unfit_not_ok (now : datetime) (b : Body) :
  unfit now b ->
  is_ok (TaskCreate_validate now b) = false
  /\ is_ok (TaskUpdate_validate now b) = false.
Proof.
  rewrite TaskCreate_validate_is_ok, TaskUpdate_validate_is_ok.
  intros [(s & E & [B | L]) | [(s & E & L) | [(d & E & L) | (s & E & L)]]];
    rewrite E.
  - destruct (TaskCreate_title_blank s B) as [e ->].
    destruct (TaskUpdate_title_blank s B) as [e' ->]. now split.
  - unfold TaskCreate_title, TaskUpdate_title.
    pose proof (str_field_over "title" 200 s L) as M.
    destruct (str_field "title" 200 s); [discriminate M|]. now split.
  - unfold optional_str, supplied_str.
    pose proof (str_field_over "description" 1000 s L) as M.
    destruct (str_field "description" 1000 s); [discriminate M|].
    simpl. rewrite !andb_false_r. now split.
  - assert (V : TaskCreate_.validate_due_date now (Some (naive d))
                = value_error "due_date" "Due date must be in the future").
    { unfold TaskCreate_.validate_due_date.
      destruct (Z.leb_spec d now); [reflexivity | lia]. }
    unfold TaskCreate_due_date, TaskUpdate_due_date.
    change (TaskUpdate_.validate_due_date now (Some (naive d)))
      with (TaskCreate_.validate_due_date now (Some (naive d))).
    rewrite V. simpl. rewrite !andb_false_r. now split.
  - unfold optional_str, supplied_str.
    pose proof (str_field_over "assigned_to" 100 s L) as M.
    destruct (str_field "assigned_to" 100 s); [discriminate M|].
    simpl. rewrite !andb_false_r. now split.
Qed.

End Refused.



Section Accepted.

Lemma optional_str_fit (f : string) (n : nat) (v : supplied pystr) :
  unicode v ->
  (forall s, v = Given (Some s) -> (List.length s <= n)%nat) ->
  is_ok (optional_str f n v) = true /\ is_ok (supplied_str f n v) = true.
Proof.
  intros U H. destruct v as [|[s|]]; simpl; try (split; reflexivity).
  rewrite (str_field_fit f n s (U s eq_refl) (H s eq_refl)).
  split; reflexivity.
Qed.

Lemma due_date_fit (now : datetime) (v : supplied due) :
  (forall d o, v <> Given (Some (aware d o))) ->
  (forall d, v = Given (Some (naive d)) -> now < d) ->
  is_ok (TaskCreate_due_date now v) = true
  /\ is_ok (TaskUpdate_due_date now v) = true.
Proof.
  intros N H. destruct v as [|[[d|d o]|]]; try (split; reflexivity).
  - specialize (H d eq_refl).
    unfold TaskCreate_due_date, TaskUpdate_due_date,
      TaskCreate_.validate_due_date, TaskUpdate_.validate_due_date.
    destruct (Z.leb_spec d now); [lia|]. split; reflexivity.
  - now elim (N d o).
Qed.

Lemma title_fit (s : pystr) :
  py.has_surrogate s = false -> ~ blank s -> (List.length s <= 200)%nat ->
  is_ok (TaskCreate_title (Given (Some s))) = true
  /\ is_ok (TaskUpdate_title (Given (Some s))) = true.
Proof.
  intros U B L. unfold TaskCreate_title, TaskUpdate_title.
  rewrite (str_field_fit "title" 200 s U L).
  rewrite create_validate_title_eq, update_validate_title_eq.
  unfold blank in B. destruct (py.all_space s); [now elim B|].
  split; reflexivity.
Qed.

(** What is left to check of a body that is not unfit. *)
Lemma fit_fields (now : datetime) (b : Body) :
  ~ unfit now b ->
  (forall s, b_title b = Given (Some s) ->
             ~ blank s /\ (List.length s <= 200)%nat)
  /\ (forall s, b_description b = Given (Some s) ->
                (List.length s <= 1000)%nat)
  /\ (forall d, b_due_date b = Given (Some (naive d)) -> now < d)
  /\ (forall s, b_assigned_to b = Given (Some s) ->
                (List.length s <= 100)%nat).
Proof.
  intros U. unfold unfit in U. repeat split.
  - intros B. apply U. left. exists s. auto.
  - destruct (Nat.le_gt_cases (List.length s) 200) as [L|L]; [exact L|].
    elim U. left. exists s. auto.
  - intros s E.
    destruct (Nat.le_gt_cases (List.length s) 1000) as [L|L]; [exact L|].
    elim U. right. left. exists s. auto.
  - intros d E. destruct (Z.lt_ge_cases now d) as [L|L]; [exact L|].
    elim U. right. right. left. exists d. split; [exact E | lia].
  - intros s E.
    destruct (Nat.le_gt_cases (List.length s) 100) as [L|L]; [exact L|].
    elim U. right. right. right. exists s. auto.
Qed.

(** The strings of a field that was validated are Unicode. *)
Lemma optional_str_unicode (f : string) (n : nat) (v : supplied pystr) :
  is_ok (optional_str f n v) = true -> unicode v.
Proof.
  intros H s ->. unfold optional_str in H.
  destruct (str_field f n s) as [x|e] eqn:F; [|discriminate H].
  now apply str_field_ok in F as (_ & U & _).
Qed.

Lemma supplied_str_unicode (f : string) (n : nat) (v : supplied pystr) :
  is_ok (supplied_str f n v) = true -> unicode v.
Proof.
  intros H s ->. unfold supplied_str in H.
  destruct (str_field f n s) as [x|e] eqn:F; [|discriminate H].
  now apply str_field_ok in F as (_ & U & _).
Qed.

Lemma TaskCreate_title_is_unicode (v : supplied pystr) :
  is_ok (TaskCreate_title v) = true -> unicode v.
Proof.
  intros H s ->. unfold TaskCreate_title in H.
  destruct (str_field "title" 200 s) as [x|e] eqn:F; [|discriminate H].
  now apply str_field_ok in F as (_ & U & _).
Qed.

Lemma TaskUpdate_title_is_unicode (v : supplied pystr) :
  is_ok (TaskUpdate_title v) = true -> unicode v.
Proof.
  intros H s ->. unfold TaskUpdate_title in H.
  destruct (str_field "title" 200 s) as [x|e] eqn:F; [|discriminate H].
  now apply str_field_ok in F as (_ & U & _).
Qed.

Lemma due_date_is_naive (now : datetime) (v : supplied due) :
  is_ok (TaskCreate_due_date now v) = true
  \/ is_ok (TaskUpdate_due_date now v) = true ->
  forall d o, v <> Given (Some (aware d o)).
Proof. intros [H|H] d o ->; discriminate H. Qed.

Lemma accepted_is_plain (now : datetime) (b : Body) :
  is_ok (TaskCreate_validate now b) = true
  \/ is_ok (TaskUpdate_validate now b) = true ->
  plain b.
Proof.
  rewrite TaskCreate_validate_is_ok, TaskUpdate_validate_is_ok.
  intros [V|V]; repeat (apply andb_true_iff in V as [V ?]).
  - repeat split.
    + now apply TaskCreate_title_is_unicode.
    + now apply (optional_str_unicode "description" 1000).
    + now apply (optional_str_unicode "assigned_to" 100).
    + apply (due_date_is_naive now). now left.
  - repeat split.
    + now apply TaskUpdate_title_is_unicode.
    + now apply (supplied_str_unicode "description" 1000).
    + now apply (supplied_str_unicode "assigned_to" 100).
    + apply (due_date_is_naive now). now right.
Qed.

End Accepted.

(** X14.  What each model accepts.  [TaskUpdate] accepts a body exactly
    when the body is plain (no lone surrogate in its strings, no offset on
    its due date) and not unfit: no title that is blank or over 200, no
    description over 1000, no due date that is not in the future, no
    assignee over 100.  [TaskCreate] accepts a body exactly when, on top of
    that, the title is there and not [null], and neither status nor
    priority is [null]. *)
Theorem what_the_models_accept (now : datetime) (b : Body) :
  (is_ok (TaskUpdate_validate now b) = true <-> plain b /\ ~ unfit now b)
  /\ (is_ok (TaskCreate_validate now b) = true
      <-> plain b /\ ~ unfit now b
          /\ (exists s, b_title b = Given (Some s))
          /\ b_status b <> Given None
          /\ b_priority b <> Given None).
Proof.
  split; split.
  - intros V. split; [apply (accepted_is_plain now); now right|].
    intros U. apply unfit_not_ok in U as [_ U]. congruence.
  - intros [(Ut & Ud & Ua & Dn) U].
    destruct (fit_fields now b U) as (T & D & DD & A).
    rewrite TaskUpdate_validate_is_ok.
    rewrite (proj2 (optional_str_fit "description" 1000 _ Ud D)).
    rewrite (proj2 (due_date_fit now _ Dn DD)).
    rewrite (proj2 (optional_str_fit "assigned_to" 100 _ Ua A)).
    rewrite !andb_true_r.
    destruct (b_title b) as [|[s|]]; try reflexivity.
    destruct (T s eq_refl) as [B L].
    apply (title_fit s (Ut s eq_refl) B L).
  - intros V. split; [apply (accepted_is_plain now); now left|]. split.
    + intros U. apply unfit_not_ok in U as [U _]. congruence.
    + rewrite TaskCreate_validate_is_ok in V.
      repeat (apply andb_true_iff in V as [V ?]).
      repeat split.
      * destruct (b_title b) as [|[s|]]; try discriminate V. now exists s.
      * intros E. rewrite E in *. discriminate.
      * intros E. rewrite E in *. discriminate.
  - intros ((Ut & Ud & Ua & Dn) & U & [s E] & S & P).
    destruct (fit_fields now b U) as (T & D & DD & A).
    rewrite TaskCreate_validate_is_ok.
    rewrite (proj1 (optional_str_fit "description" 1000 _ Ud D)).
    rewrite (proj1 (due_date_fit now _ Dn DD)).
    rewrite (proj1 (optional_str_fit "assigned_to" 100 _ Ua A)).
    destruct (T s E) as [B L].
    pose proof (proj1 (title_fit s (Ut s E) B L)) as Q. rewrite <- E in Q.
    rewrite Q.
    destruct (b_status b) as [|[x|]], (b_priority b) as [|[y|]];
      try reflexivity; congruence.
Qed.

Lemma what_the_models_accept_witness :
  plain buy_milk /\ ~ unfit 10 buy_milk
  /\ is_ok (TaskUpdate_validate 10 buy_milk) = true
  /\ is_ok (TaskCreate_validate 10 buy_milk) = true.
Proof.
  assert (P : plain buy_milk).
  { repeat split; try discriminate; intros s E; try discriminate E.
    now injection E as <-. }
  assert (U : ~ unfit 10 buy_milk).
  { intros [(s & E & [B | L]) | [(s & E & _) | [(d & E & _) | (s & E & _)]]];
      try discriminate E.
    - injection E as <-. discriminate B.
    - injection E as <-. simpl in L. lia. }
  split; [exact P|]. split; [exact U|].
  destruct (what_the_models_accept 10 buy_milk) as [A C].
  split; [now apply A|]. apply C. split; [exact P|]. split; [exact U|].
  split; [eexists; reflexivity|]. split; discriminate.
Defined.

(** X15.  A title that [validate_title] returned is not empty, has no
    whitespace at its start or its end, and is returned unchanged when it is
    validated again, on create and on update. *)
Theorem validated_title_is_fixed (v t : pystr) :
  TaskCreate_.validate_title v = Ok t ->
  t <> []
  /\ (forall c r, t = c :: r -> py.isspace c = false)
  /\ (forall r c, t = r ++ [c] -> py.isspace c = false)
  /\ TaskCreate_.validate_title t = Ok t
  /\ TaskUpdate_.validate_title (Some t) = Ok (Some t).
Proof.
  rewrite create_validate_title_eq.
  destruct (py.all_space v) eqn:B; [discriminate|].
  intros E. injection E as <-.
  assert (NB : py.all_space (py.strip v) = false)
    by now rewrite all_space_strip.
  split; [|split; [|split; [|split]]].
  - intros E. rewrite E in NB. discriminate NB.
  - intros c r E. unfold py.strip in E.
    assert (L : py.lstrip (py.rstrip (py.lstrip v)) = c :: r)
      by now rewrite lstrip_rstrip_lstrip.
    now apply lstrip_head in L.
  - intros r c E. unfold py.strip in E.
    destruct (rstrip_last (py.lstrip v)) as [F | (r' & c' & F & Hc)].
    + rewrite F in E. now destruct r.
    + rewrite F in E. apply app_inj_tail in E as [_ <-]. exact Hc.
  - rewrite create_validate_title_eq, NB. now rewrite strip_idem.
  - rewrite update_validate_title_eq, NB. now rewrite strip_idem.
Qed.

Lemma validated_title_is_fixed_witness :
  TaskCreate_.validate_title (py.str "  Buy milk ") = Ok (py.str "Buy milk")
  /\ TaskCreate_.validate_title (py.str "Buy milk") = Ok (py.str "Buy milk").
Proof.
  assert (V : TaskCreate_.validate_title (py.str "  Buy milk ")
              = Ok (py.str "Buy milk")) by reflexivity.
  split; [exact V|].
  exact (proj1 (proj2 (proj2 (proj2
           (validated_title_is_fixed _ _ V))))).
Defined.

(** ** The lengths of the stored strings *)

Section Lengths.

Lemma optional_str_within (f : string) (n : nat) (v : supplied pystr)
    (r : option pystr) :
  optional_str f n v = Ok r -> within n r.
Proof.
  destruct v as [|[s|]]; simpl; try (intros E; injection E as <-; exact I).
  destruct (str_field f n s) as [x|e] eqn:F; [|discriminate].
  apply str_field_ok in F as (-> & _ & L).
  intros E. injection E as <-. exact L.
Qed.

Lemma supplied_str_within (f : string) (n : nat) (v r : supplied pystr)
    (prior : option pystr) :
  supplied_str f n v = Ok r -> within n prior ->
  within n (field_after r prior).
Proof.
  destruct v as [|[s|]]; simpl; try (intros E; injection E as <-; now simpl).
  destruct (str_field f n s) as [x|e] eqn:F; [|discriminate].
  apply str_field_ok in F as (-> & _ & L).
  intros E _. injection E as <-. exact L.
Qed.

Lemma created_strings_ok (now_v now : datetime) (b : Body)
    (task : TaskCreate) (k : Z) :
  TaskCreate_validate now_v b = Ok task ->
  strings_ok (with_id k (new_task now task)).
Proof.
  intros V. apply TaskCreate_validate_inv in V as (T & D & _ & _ & _ & A).
  apply TaskCreate_title_ok in T as (s & _ & _ & S & L).
  apply optional_str_within in D. apply optional_str_within in A.
  unfold strings_ok. simpl. repeat split; try assumption.
  - rewrite S. etransitivity; [apply length_strip | exact L].
  - intros x E. injection E as <-. rewrite S. apply strip_idem.
Qed.

Lemma updated_strings_ok (now_v now : datetime) (b : Body) (u : TaskUpdate)
    (t : Task) :
  TaskUpdate_validate now_v b = Ok u ->
  strings_ok t -> strings_ok (updated now u t).
Proof.
  intros V (T1 & T2 & D & A).
  apply TaskUpdate_validate_inv in V as (T & Dv & _ & _ & _ & Av).
  apply TaskUpdate_title_ok in T.
  unfold strings_ok. simpl.
  split; [|split; [|split]].
  - destruct (b_title b) as [|[s|]].
    + now rewrite T.
    + destruct T as (_ & -> & L). simpl.
      etransitivity; [apply length_strip | exact L].
    + now rewrite T.
  - destruct (b_title b) as [|[s|]].
    + now rewrite T.
    + destruct T as (_ & -> & _). simpl. intros x E. injection E as <-.
      apply strip_idem.
    + rewrite T. simpl. discriminate.
  - now apply (supplied_str_within "description" 1000 (b_description b)).
  - now apply (supplied_str_within "assigned_to" 100 (b_assigned_to b)).
Qed.

Lemma handle_strings_ok (r : request) (table : list Task) :
  Forall strings_ok table -> Forall strings_ok (snd (handle r table)).
Proof.
  intros H.
  destruct (handle_cases r table)
    as [-> | [(now_v & now & b & task & _ & V & ->)
           | [(now_v & now & k & b & u & t & _ & V & F & N & ->)
             | (k & _ & ->)]]].
  - exact H.
  - apply Forall_app. split; [exact H|].
    constructor; [|constructor]. now apply (created_strings_ok now_v now b).
  - unfold replace_row. apply Forall_map.
    apply first_filter_some in F as [I _].
    assert (Ht : strings_ok t) by exact (proj1 (Forall_forall _ _) H t I).
    apply (Forall_impl _ (P := strings_ok)); [|exact H].
    intros x Hx. destruct (id_is k x); [|exact Hx].
    now apply (updated_strings_ok now_v now b).
  - apply Forall_forall. intros x I. apply filter_In in I as [I _].
    exact (proj1 (Forall_forall _ _) H x I).
Qed.

Lemma run_strings_ok (rs : list request) (table : list Task) :
  Forall strings_ok table -> Forall strings_ok (run rs table).
Proof.
  revert table. induction rs as [|r rs IH]; intros table H; simpl.
  - exact H.
  - apply IH. now apply handle_strings_ok.
Qed.

End Lengths.

(** X16.  In every store that the requests can reach, and after any further
    requests, every title has at most 200 characters and no whitespace at
    its ends, every description at most 1000 characters and every assignee
    at most 100. *)
Theorem stored_strings_within_lengths (table : list Task)
    (rs : list request) :
  reachable table -> Forall strings_ok (run rs table).
Proof.
  intros [rs0 <-]. rewrite <- run_app. apply run_strings_ok. constructor.
Qed.

Lemma stored_strings_within_lengths_witness :
  reachable []
  /\ Forall strings_ok
       (run [POST_tasks 10 11 buy_milk;
             PUT_task 20 21 1
               (body_of (Given (Some (py.str " Buy bread  "))) Unset Unset
                        Unset)] []).
Proof.
  assert (R : reachable []) by (exists []; reflexivity).
  split; [exact R|]. apply stored_strings_within_lengths. exact R.
Defined.

(** ** The response models *)

Section ResponseModels.

Lemma TaskResponse_of_row (t : Task) :
  id t <> None -> not_null t ->
  exists r, TaskResponse_validate t = Ok r /\ shown r = t.
Proof.
  unfold not_null, null_violation, TaskResponse_validate. intros K N.
  destruct t as [i ti d s p c u dd a]. simpl in *.
  destruct i as [i|]; [|contradiction].
  destruct ti as [ti|]; [|discriminate].
  destruct s as [s|]; [|discriminate].
  destruct p as [p|]; [|discriminate].
  eexists. split; reflexivity.
Qed.

Lemma TaskResponse_of_rows (tasks : list Task) :
  Forall (fun t => id t <> None /\ not_null t) tasks ->
  exists xs, TaskResponse_validate_all tasks = Ok xs /\ map shown xs = tasks.
Proof.
  induction 1 as [|t r [K N] Hr [xs [E M]]]; simpl.
  - exists []. split; reflexivity.
  - destruct (TaskResponse_of_row t K N) as [x [Ex Sx]].
    rewrite Ex, E. exists (x :: xs). simpl. now rewrite Sx, M.
Qed.

End ResponseModels.

(** X17.  The response models take every row of a store that meets its
    schema: [TaskResponse] is built from each row and shows its nine
    attributes unchanged, and [TaskListResponse] is built from every list of
    rows with the total, skip and limit it is given.  A task without an id
    is not taken. *)
Theorem response_models_take_the_rows (table : list Task) :
  schema_ok table ->
  (forall t, In t table ->
     exists r, TaskResponse_validate t = Ok r /\ shown r = t)
  /\ (forall tasks total skip limit_n,
        incl tasks table ->
        exists l,
          TaskListResponse_validate tasks total skip limit_n = Ok l
          /\ map shown (l_tasks l) = tasks
          /\ l_total l = total /\ l_skip l = skip /\ l_limit l = limit_n)
  /\ (forall t, id t = None -> is_ok (TaskResponse_validate t) = false).
Proof.
  intros [[K _] N].
  assert (R : forall t, In t table -> id t <> None /\ not_null t).
  { intros t I. split.
    - exact (proj1 (Forall_forall _ _) K t I).
    - exact (proj1 (Forall_forall _ _) N t I). }
  split; [|split].
  - intros t I. destruct (R t I). now apply TaskResponse_of_row.
  - intros tasks total skip limit_n S.
    destruct (TaskResponse_of_rows tasks) as [xs [E M]].
    { apply Forall_forall. intros t I. apply R. now apply S. }
    unfold TaskListResponse_validate. rewrite E.
    eexists. repeat split. exact M.
  - intros t E. unfold TaskResponse_validate. now rewrite E.
Qed.

Lemma response_models_take_the_rows_witness :
  schema_ok three_rows
  /\ exists r, TaskResponse_validate milk_row = Ok r /\ shown r = milk_row.
Proof.
  assert (S : schema_ok three_rows).
  { split; [split|]; repeat constructor; simpl; try discriminate;
      intuition discriminate. }
  split; [exact S|].
  apply (proj1 (response_models_take_the_rows three_rows S)).
  left. reflexivity.
Defined.

(** ** Reading *)

Section Reading.

Lemma bind_keeps_rows {A B : Type} (m : M A) (k : A -> M B) :
  keeps_rows m -> (forall a, keeps_rows (k a)) -> keeps_rows (bind m k).
Proof.
  intros Hm Hk s. unfold bind. specialize (Hm s).
  destruct (m s) as [[a|e] s']; simpl in *; [|exact Hm].
  now rewrite Hk.
Qed.

Lemma bind_keeps_clean {A B : Type} (m : M A) (k : A -> M B) :
  keeps_clean m -> (forall a, keeps_clean (k a)) -> keeps_clean (bind m k).
Proof.
  intros Hm Hk s U. unfold bind. specialize (Hm s U).
  destruct (m s) as [[a|e] s']; simpl in *; [|exact Hm].
  now apply Hk.
Qed.

Lemma query_keeps_rows {A : Type} (st : statement) (read : list Task -> A) :
  keeps_rows (query st read).
Proof.
  intros s. unfold query.
  destruct (flush (unit_of_work s) (rows s, lastrowid s)) as [[view last]|e];
    [destruct (bindable st view)|]; reflexivity.
Qed.

Lemma query_keeps_clean {A : Type} (st : statement) (read : list Task -> A) :
  keeps_clean (query st read).
Proof.
  intros s U. unfold query. rewrite U. simpl.
  destruct (bindable st (rows s)); reflexivity.
Qed.

Lemma get_task_keeps (k : Z) :
  keeps_rows (crud.get_task k) /\ keeps_clean (crud.get_task k).
Proof.
  unfold crud.get_task, session_exec. split.
  - apply bind_keeps_rows; [apply query_keeps_rows | now intros a s].
  - apply bind_keeps_clean; [apply query_keeps_clean | now intros a s].
Qed.

Lemma get_tasks_keeps (skip limit_n : Z) (st : option TaskStatus)
    (pr : option TaskPriority) :
  keeps_rows (crud.get_tasks skip limit_n st pr)
  /\ keeps_clean (crud.get_tasks skip limit_n st pr).
Proof.
  unfold crud.get_tasks, session_exec_count, session_exec. split.
  - apply bind_keeps_rows; [apply query_keeps_rows|]. intros total.
    apply bind_keeps_rows; [apply query_keeps_rows | now intros a s].
  - apply bind_keeps_clean; [apply query_keeps_clean|]. intros total.
    apply bind_keeps_clean; [apply query_keeps_clean | now intros a s].
Qed.

End Reading.

(** X18.  Reading never writes.  The read handler and the three listing
    handlers leave the store as it is for every input, whatever they
    answer.  In any session, whatever is pending in it, [get_task] and
    [get_tasks] leave the committed rows as they were, and in a session
    with nothing pending they leave nothing pending. *)
Theorem reading_leaves_the_store (table : list Task) (s : Session) :
  (forall task_id, snd (main.read_task task_id table) = table)
  /\ (forall skip limit_n,
        snd (main.read_tasks skip limit_n table) = table)
  /\ (forall st skip limit_n,
        snd (main.read_tasks_by_status st skip limit_n table) = table)
  /\ (forall pr skip limit_n,
        snd (main.read_tasks_by_priority pr skip limit_n table) = table)
  /\ (forall task_id, rows (snd (crud.get_task task_id s)) = rows s)
  /\ (forall skip limit_n st pr,
        rows (snd (crud.get_tasks skip limit_n st pr s)) = rows s)
  /\ (unit_of_work s = [] ->
      (forall task_id, unit_of_work (snd (crud.get_task task_id s)) = [])
      /\ (forall skip limit_n st pr,
            unit_of_work (snd (crud.get_tasks skip limit_n st pr s)) = [])).
Proof.
  assert (P : forall skip limit_n st pr,
            snd (main.page skip limit_n
                   (fun a b => crud.get_tasks a b st pr) table) = table).
  { intros skip limit_n st pr. unfold main.page.
    destruct (Query "skip" 0 0 None skip) as [a|e];
      destruct (Query "limit" 100 1 (Some 1000) limit_n) as [c|e'];
      try reflexivity.
    rewrite get_tasks_run.
    destruct (fits_int64 a && fits_int64 c); reflexivity. }
  split; [|split; [|split; [|split; [|split; [|split]]]]].
  - intros k. unfold main.read_task. rewrite get_task_eq.
    destruct (first _); [reflexivity|].
    destruct (fits_int64 k); reflexivity.
  - intros skip limit_n. apply (P skip limit_n None None).
  - intros st skip limit_n. apply (P skip limit_n (Some st) None).
  - intros pr skip limit_n. apply (P skip limit_n None (Some pr)).
  - intros k. apply (proj1 (get_task_keeps k)).
  - intros skip limit_n st pr.
    apply (proj1 (get_tasks_keeps skip limit_n st pr)).
  - intros U. split.
    + intros k. now apply (proj2 (get_task_keeps k)).
    + intros skip limit_n st pr.
      now apply (proj2 (get_tasks_keeps skip limit_n st pr)).
Qed.

Lemma reading_leaves_the_store_witness :
  unit_of_work (get_session three_rows) = []
  /\ unit_of_work (snd (crud.get_task 2 (get_session three_rows))) = []
  /\ rows (snd (crud.get_tasks 0 2 None None (get_session three_rows)))
     = three_rows.
Proof.
  destruct (reading_leaves_the_store three_rows (get_session three_rows))
    as (_ & _ & _ & _ & _ & R & U).
  split; [reflexivity|]. split.
  - apply (proj1 (U eq_refl)).
  - apply R.
Defined.

(** ** Create, then list *)


